(** * Habit tracker: period and streak computations

    A shallow embedding of [habit_tracker.py]: the [Habit] class with
    [is_task_completed_for_period], [get_current_streak] and
    [get_longest_streak], and the analytics functions
    [get_longest_streak_for_habit], [get_current_streak_for_habit] and
    [get_struggling_habits].

    Modelling conventions.
    - A [datetime.date] is its proleptic Gregorian ordinal
      ([date.toordinal()], an integer; 0001-01-01 is ordinal 1 and a
      Monday).  Adding [timedelta(days=n)] is integer addition, comparing
      dates is comparing ordinals, [(a - b).days] is [a - b].  The
      representable range of Python dates (years 1 to 9999) is not part of
      the model: arithmetic is on unbounded ordinals.
    - A naive [datetime] is a date together with a time of day in
      microseconds.
    - [datetime.now()] and [uuid.uuid4()] read the ambient [World], and
      [raise] and list indexing can fail: methods live in the monad [M]
      of computations that read the world and return a value or raise.
    - Python [int] counters that only count up from 0 are [nat]; the
      [days] argument of [get_struggling_habits] is any integer. *)

From Equations Require Import Equations.
From Stdlib Require Import ZArith List Bool String Lia Sorted Finite.
Import ListNotations.

#[local] Open Scope string_scope.
#[local] Open Scope Z_scope.

(** ** Python built-ins used by the program *)

Module py.

(** [range(n)]: the integers [0 .. n-1], empty when [n <= 0]. *)
Definition range (n : Z) : list Z :=
  map Z.of_nat (seq 0 (Z.to_nat n)).

(** [any(p(x) for x in l)]. *)
Definition any {A} (p : A -> bool) (l : list A) : bool := existsb p l.

(** [not l] for a list: the empty list is falsy. *)
Definition not_ {A} (l : list A) : bool :=
  match l with [] => true | _ :: _ => false end.

(** The exceptions the program can raise. *)
Inductive exn : Type :=
| ValueError (msg : string)
| IndexError (msg : string).

(** A computation that returns a value or raises. *)
Definition result (A : Type) : Type := (exn + A)%type.
Definition Return {A} (a : A) : result A := inr a.
Definition Raise {A} (e : exn) : result A := inl e.

(** [l[i]]: a negative index counts from the end; an index outside the
    list raises [IndexError]. *)
Definition getitem {A} (l : list A) (i : Z) : result A :=
  let n := Z.of_nat (List.length l) in
  let j := if i <? 0 then i + n else i in
  if (0 <=? j) && (j <? n) then
    match nth_error l (Z.to_nat j) with
    | Some x => Return x
    | None => Raise (IndexError "list index out of range")
    end
  else Raise (IndexError "list index out of range").

(** [max(l, key=key, default=default)]: the first element whose key is
    largest, [default] for an empty list. *)
Definition max_key {A} (key : A -> nat) (l : list A) (default : A) : A :=
  match l with
  | [] => default
  | x :: l' =>
      fold_left (fun best y => if (key best <? key y)%nat then y else best)
                l' x
  end.

End py.

(** ** [datetime.date] and [datetime.datetime] *)

Module date.

Definition t : Type := Z.

(** [date.weekday()]: Monday is 0, Sunday is 6. *)
Definition weekday (d : t) : Z := (d + 6) mod 7.

End date.

Module datetime.

(** [combine d tm] is [datetime.combine(d, tm)]. *)
Record t : Type := combine { date : date.t; time : Z }.

(** [datetime.min.time()], midnight. *)
Definition min_time : Z := 0.

Definition weekday (dt : t) : Z := date.weekday (date dt).

(** The order [sorted] uses on naive datetimes: date first, then time. *)
Definition leb (a b : t) : bool :=
  (date a <? date b) || ((date a =? date b) && (time a <=? time b)).

Fixpoint insert (x : t) (l : list t) : list t :=
  match l with
  | [] => [x]
  | y :: l' => if leb x y then x :: y :: l' else y :: insert x l'
  end.

(** [sorted(l)] for a list of datetimes (a stable sort). *)
Definition sorted (l : list t) : list t := fold_right insert [] l.

End datetime.

(** ** The ambient world: the system clock and the uuid generator *)

Record World : Type := mkWorld {
  wall_clock : datetime.t;
  fresh_uuid : string
}.

Definition M (A : Type) : Type := World -> py.result A.
Definition ret {A} (a : A) : M A := fun _ => py.Return a.
Definition raise {A} (e : py.exn) : M A := fun _ => py.Raise e.
Definition lift {A} (r : py.result A) : M A := fun _ => r.
Definition bind {A B} (m : M A) (k : A -> M B) : M B :=
  fun w => match m w with
           | inl e => inl e
           | inr a => k a w
           end.

Declare Scope py_scope.
Delimit Scope py_scope with py.
Notation "x <- m ;; k" := (bind m (fun x => k))
  (at level 61, m at next level, right associativity) : py_scope.

(** [datetime.now()]. *)
Definition datetime_now : M datetime.t :=
  fun w => py.Return (wall_clock w).
(** [str(uuid.uuid4())]. *)
Definition uuid4 : M string :=
  fun w => py.Return (fresh_uuid w).

(** ** class Habit *)

Record Habit : Type := mkHabit {
  id : string;
  name : string;
  description : string;
  periodicity : string;
  created_at : datetime.t;
  completions : list datetime.t
}.

#[local] Open Scope py_scope.

(** [Habit.__init__]: [id], [created_at] and [completions] are optional;
    a falsy [id] (None or the empty string) is replaced by a fresh uuid,
    a missing [created_at] by the clock, falsy [completions] by []. *)
Definition init (name description periodicity : string)
    (id : option string) (created_at : option datetime.t)
    (completions : option (list datetime.t)) : M Habit :=
  self_id <- match id with
             | Some s => if String.eqb s "" then uuid4 else ret s
             | None => uuid4
             end ;;
  if negb (existsb (String.eqb periodicity) ["daily"; "weekly"]) then
    raise (py.ValueError "Periodicity must be 'daily' or 'weekly'")
  else
    self_created_at <- match created_at with
                       | Some c => ret c
                       | None => datetime_now
                       end ;;
    let self_completions :=
      match completions with Some (c :: l) => c :: l | _ => [] end in
    ret (mkHabit self_id name description periodicity
           self_created_at self_completions).

(** [self.completions.append(t)]. *)
Definition append_completion (self : Habit) (t : datetime.t) : Habit :=
  mkHabit (id self) (name self) (description self) (periodicity self)
    (created_at self) (completions self ++ [t]).

(** [Habit.complete_task]: appends the current time. *)
Definition complete_task (self : Habit) : M Habit :=
  now <- datetime_now ;;
  ret (append_completion self now).

(** [Habit.is_task_completed_for_period]. *)
Definition is_task_completed_for_period (self : Habit)
    (target_date : datetime.t) : bool :=
  if String.eqb (periodicity self) "daily" then
    py.any (fun c => datetime.date c =? datetime.date target_date)
           (completions self)
  else
    let start_of_week :=
      datetime.date target_date - datetime.weekday target_date in
    let end_of_week := start_of_week + 6 in
    py.any (fun c => (start_of_week <=? datetime.date c)
                     && (datetime.date c <=? end_of_week))
           (completions self).

Definition inspect {A} (a : A) : {b : A | a = b} := exist _ a eq_refl.

(** The two [while] loops of [get_current_streak]: they differ only in
    the [timedelta] subtracted ([delta] is 1 day or 7 days).
    [while check_date >= created: if completed: streak += 1;
    check_date -= delta else: break]. *)
Equations? streak_loop (self : Habit) (delta : positive)
    (check_date : date.t) (streak : nat) : nat
  by wf (Z.to_nat (check_date - datetime.date (created_at self) + 1)) lt :=
  streak_loop self delta check_date streak
    with inspect (check_date >=? datetime.date (created_at self)) => {
    | exist _ true _
        with is_task_completed_for_period self
               (datetime.combine check_date datetime.min_time) => {
        | true := streak_loop self delta (check_date - Z.pos delta) (S streak);
        | false := streak };
    | exist _ false _ := streak }.
Proof. lia. Qed.

(** [Habit.get_current_streak]. *)
Definition get_current_streak (self : Habit) : M nat :=
  if py.not_ (completions self) then ret 0%nat
  else
    let sorted_completions := datetime.sorted (completions self) in
    latest <- lift (py.getitem sorted_completions (-1)) ;;
    let latest_completion := datetime.date latest in
    now <- datetime_now ;;
    let current_date := datetime.date now in
    if String.eqb (periodicity self) "daily" then
      if latest_completion <? current_date then ret 0%nat
      else ret (streak_loop self 1 current_date 0)
    else
      let current_week_start :=
        current_date - date.weekday current_date in
      if latest_completion <? current_week_start then ret 0%nat
      else ret (streak_loop self 7 current_week_start 0).

(** The periods [get_longest_streak] enumerates, from creation to now. *)
Definition all_periods (self : Habit) (current_date : date.t)
  : list date.t :=
  let created_date := datetime.date (created_at self) in
  if String.eqb (periodicity self) "daily" then
    let days_count := (current_date - created_date) + 1 in
    map (fun i => created_date + i) (py.range days_count)
  else
    let first_week_start := created_date - date.weekday created_date in
    let current_week_start := current_date - date.weekday current_date in
    let weeks_count := (current_week_start - first_week_start) / 7 + 1 in
    map (fun i => first_week_start + i * 7) (py.range weeks_count).

Definition completion_status (self : Habit) (periods : list date.t)
  : list bool :=
  map (fun period =>
         is_task_completed_for_period self
           (datetime.combine period datetime.min_time))
      periods.

(** One iteration of the scan, on the pair
    [(longest_streak, current_streak)]. *)
Definition scan_step (st : nat * nat) (status : bool) : nat * nat :=
  let '(longest_streak, current_streak) := st in
  if status then
    (Nat.max longest_streak (S current_streak), S current_streak)
  else (longest_streak, 0%nat).

Definition scan (statuses : list bool) : nat :=
  fst (fold_left scan_step statuses (0%nat, 0%nat)).

(** [Habit.get_longest_streak]. *)
Definition get_longest_streak (self : Habit) : M nat :=
  if py.not_ (completions self) then ret 0%nat
  else
    now <- datetime_now ;;
    let current_date := datetime.date now in
    ret (scan (completion_status self (all_periods self current_date))).

(** ** Analytics *)



(** The [check_dates] list built by [is_struggling]. *)
Definition check_dates (today : date.t) (days : Z) (habit : Habit)
  : list date.t :=
  let on_or_after_creation :=
    fun check_date => check_date >=? datetime.date (created_at habit) in
  if String.eqb (periodicity habit) "daily" then
    filter on_or_after_creation
      (map (fun i => today - i) (py.range days))
  else
    let current_week_start := today - date.weekday today in
    let weeks_to_check := days / 7 + 1 in
    filter on_or_after_creation
      (map (fun i => current_week_start - i * 7) (py.range weeks_to_check)).

(** One iteration of the counting loop, on the pair
    [(completed_periods, broken_periods)]. *)
Definition count_step (habit : Habit) (st : nat * nat) (d : date.t)
  : nat * nat :=
  let '(completed_periods, broken_periods) := st in
  if is_task_completed_for_period habit
       (datetime.combine d datetime.min_time)
  then (S completed_periods, broken_periods)
  else (completed_periods, S broken_periods).

(** The closure [is_struggling] of [get_struggling_habits]; [today] and
    [days] are the variables it captures. *)
Definition is_struggling (today : date.t) (days : Z) (habit : Habit)
  : bool :=
  let '(completed_periods, broken_periods) :=
    fold_left (count_step habit) (check_dates today days habit)
              (0%nat, 0%nat) in
  (completed_periods <? broken_periods)%nat
  && (0 <? broken_periods + completed_periods)%nat.

Definition default_days : Z := 30.

(** [get_struggling_habits]. *)
Definition get_struggling_habits (habits : list Habit) (days : Z)
  : M (list Habit) :=
  now <- datetime_now ;;
  let today := datetime.date now in
  let start_date := today - days in
  ret (filter (is_struggling today days) habits).

(** * Specification-side notions *)

(** [periodAnchor] of the specification: the date itself for a daily
    habit, the Monday of its week otherwise. *)
Definition periodAnchor (cadence : string) (d : date.t) : date.t :=
  if String.eqb cadence "daily" then d else d - date.weekday d.

(** Length of a period in days ([stepBack] subtracts it). *)
Definition period_days (cadence : string) : positive :=
  if String.eqb cadence "daily" then 1%positive else 7%positive.

(** [isCompletedForPeriod] on a date: the period of the target date. *)
Definition completed_on (h : Habit) (d : date.t) : bool :=
  is_task_completed_for_period h (datetime.combine d datetime.min_time).

(** [latestAnchor]: the largest period anchor among the completions. *)
Definition latestAnchor (cadence : string) (cs : list datetime.t)
  : option date.t :=
  match cs with
  | [] => None
  | c :: l =>
      Some (fold_left Z.max
              (map (fun x => periodAnchor cadence (datetime.date x)) l)
              (periodAnchor cadence (datetime.date c)))
  end.

(** A backward walk from the anchor [top] in steps of [step] days that
    counts [k] periods: the first [k] periods are on or after [lower] and
    completed, and the next one is before [lower] or not completed. *)
Definition walk_stops_at (h : Habit) (step lower top : Z) (k : nat)
  : Prop :=
  (forall i : nat, (i < k)%nat ->
     lower <= top - step * Z.of_nat i
     /\ completed_on h (top - step * Z.of_nat i) = true)
  /\ (top - step * Z.of_nat k < lower
      \/ completed_on h (top - step * Z.of_nat k) = false).

(** [currentStreak] as the specification words its contract: the walk
    starts at the period of [now] and includes the creation period. *)
Definition is_current_streak (h : Habit) (now : date.t) (k : nat) : Prop :=
  let cadence := periodicity h in
  walk_stops_at h (Z.pos (period_days cadence))
    (periodAnchor cadence (datetime.date (created_at h)))
    (periodAnchor cadence now) k.

(** A run of [n] consecutive [true] entries starting at index [i]. *)
Definition run_at (l : list bool) (i n : nat) : Prop :=
  forall j : nat, (j < n)%nat -> nth_error l (i + j) = Some true.

(** [n] is the maximum length of a run of consecutive [true] entries. *)
Definition is_longest_run (l : list bool) (n : nat) : Prop :=
  (exists i : nat, run_at l i n)
  /\ (forall i m : nat, run_at l i m -> (m <= n)%nat).

(** The enumeration of all period anchors from the creation period
    through the period of [now], in calendar order. *)
Definition lifetime_periods (h : Habit) (now : date.t)
    (periods : list date.t) : Prop :=
  let cadence := periodicity h in
  StronglySorted Z.lt periods
  /\ (forall a : date.t,
        In a periods <->
        periodAnchor cadence a = a
        /\ periodAnchor cadence (datetime.date (created_at h)) <= a
        /\ a <= periodAnchor cadence now).

(** The anchors the specification says [strugglingStatus] classifies:
    the period anchors in the closed interval [[now - windowDays, now]]
    on or after the creation anchor. *)
Definition window_anchor_claimed (h : Habit) (today : date.t) (days : Z)
    (a : date.t) : Prop :=
  let cadence := periodicity h in
  periodAnchor cadence a = a
  /\ today - days <= a <= today
  /\ periodAnchor cadence (datetime.date (created_at h)) <= a.

(** Number of periods [is_struggling] looks back over: [days] for a
    daily habit, [days // 7 + 1] for a weekly one. *)
Definition periods_to_check (cadence : string) (days : Z) : Z :=
  if String.eqb cadence "daily" then days else days / 7 + 1.

(** * Sample data

    Ordinals: 739383 is Monday 2025-05-12, 739385 Wednesday 2025-05-14,
    739388 Saturday 2025-05-17. *)

Definition noon : Z := 43200000000.

Definition world_on (d : date.t) : World :=
  mkWorld (datetime.combine d noon) "0b0e7e0c-5f0a-4a57-9d5e-3c1b8f4f2a11".

(** A weekly habit created on a Wednesday and completed the next day. *)
Definition weekly_midweek : Habit :=
  mkHabit "w1" "Weekly Planning" "Plan the upcoming week" "weekly"
    (datetime.combine 739385 noon) [datetime.combine 739386 noon].

(** A daily habit created on 2025-05-15 and completed on its first two
    days. *)
Definition daily_two_days : Habit :=
  mkHabit "d1" "Read Book" "Read for 20 minutes" "daily"
    (datetime.combine 739386 noon)
    [datetime.combine 739386 noon; datetime.combine 739387 noon].

(** A daily habit created 20 days before 2025-05-17, never completed. *)
Definition daily_idle : Habit :=
  mkHabit "d2" "Morning Exercise" "30 minutes of physical activity" "daily"
    (datetime.combine 739368 noon) [].

(** The fixtures of the test suite, with [today] for the day the tests
    run: a daily habit created 10 days ago and a weekly habit created 28
    days ago. *)
Definition days_ago (today : date.t) (ago : list Z) : list datetime.t :=
  map (fun a => datetime.combine (today - a) noon) ago.

Definition sample_habit (today : date.t) (ago : list Z) : Habit :=
  mkHabit "test-habit-1" "Test Habit" "A test habit" "daily"
    (datetime.combine (today - 10) noon) (days_ago today ago).

Definition sample_weekly_habit (today : date.t) (ago : list Z) : Habit :=
  mkHabit "test-habit-2" "Weekly Test" "A weekly test habit" "weekly"
    (datetime.combine (today - 28) noon) (days_ago today ago).

(** * The rest of the analytics module *)

(** [map(f, l)] for an [f] that reads the world or may raise: the
    elements are processed from left to right. *)
Fixpoint mapM {A B} (f : A -> M B) (l : list A) : M (list B) :=
  match l with
  | [] => ret []
  | a :: l' =>
      b <- f a ;;
      bs <- mapM f l' ;;
      ret (b :: bs)
  end.


(** [get_longest_streak_all]: the pairs are [(habit, streak)], the
    default of [max] and the result for no habits is [(None, 0)]. *)
Definition get_longest_streak_all (habits : list Habit)
  : M (option Habit * nat) :=
  if py.not_ habits then ret (None, 0%nat)
  else
    habit_streaks <-
      mapM (fun habit =>
              streak <- get_longest_streak habit ;;
              ret (Some habit, streak))
           habits ;;
    ret (py.max_key snd habit_streaks (None, 0%nat)).





(** * class HabitTracker

    Habits are Python objects: the tracker's list holds references, and
    [complete_task] mutates the object a reference points to.  The heap
    maps references to habit objects; [next_ref] is the first reference
    not yet allocated.  [DataManager] reads and writes a SQLite file: its
    operations are parameters of the tracker, each a transformer of the
    store that may raise. *)

Definition ref : Type := nat.

Record Memory (Store : Type) : Type := mkMemory {
  heap : ref -> Habit;
  next_ref : ref;
  habits : list ref;
  db : Store
}.
Arguments mkMemory {Store} _ _ _ _.
Arguments heap {Store} _ _.
Arguments next_ref {Store} _.
Arguments habits {Store} _.
Arguments db {Store} _.

(** The object at [r] replaced by [h]. *)
Definition heap_set (hp : ref -> Habit) (r : ref) (h : Habit)
  : ref -> Habit :=
  fun r' => if Nat.eqb r' r then h else hp r'.

(** [values] allocated at the references [start], [start + 1], ... *)
Fixpoint heap_alloc (hp : ref -> Habit) (start : ref) (values : list Habit)
  : ref -> Habit :=
  match values with
  | [] => hp
  | v :: values' => heap_alloc (heap_set hp start v) (S start) values'
  end.

Section HabitTracker.

Variable Store : Type.

(** [DataManager.save_data] and [DataManager.load_data]. *)
Variable save_data : list Habit -> World -> Store -> py.result unit * Store.
Variable load_data : World -> Store -> py.result (list Habit) * Store.

(** Methods of the tracker: they read the world, read and write the
    memory, and return a value or raise; the memory written before an
    exception stays written. *)
Definition Tr (A : Type) : Type :=
  Memory Store -> World -> py.result A * Memory Store.

Definition tr_ret {A} (a : A) : Tr A := fun m _ => (py.Return a, m).

Definition tr_bind {A B} (c : Tr A) (k : A -> Tr B) : Tr B :=
  fun m w =>
    match c m w with
    | (inl e, m') => (inl e, m')
    | (inr a, m') => k a m' w
    end.

Notation "x <-- c ;; k" := (tr_bind c (fun x => k))
  (at level 61, c at next level, right associativity).

(** [self.habits], and the objects the references point to. *)
Definition self_habits : Tr (list ref) := fun m _ => (py.Return (habits m), m).
Definition objects : Tr (ref -> Habit) := fun m _ => (py.Return (heap m), m).

(** [self.habits = l]. *)
Definition set_habits (l : list ref) : Tr unit :=
  fun m _ => (py.Return tt, mkMemory (heap m) (next_ref m) l (db m)).

(** A call of a [DataManager] operation. *)
Definition on_db {A} (op : World -> Store -> py.result A * Store) : Tr A :=
  fun m w =>
    let '(r, db') := op w (db m) in
    (r, mkMemory (heap m) (next_ref m) (habits m) db').

(** [HabitTracker.save_habits]. *)
Definition save_habits : Tr unit :=
  l <-- self_habits ;;
  obj <-- objects ;;
  on_db (save_data (map obj l)).

(** The habits returned by [load_data] are new objects: they are
    allocated at the next free references. *)
Definition allocate (values : list Habit) : Tr (list ref) :=
  fun m _ =>
    (py.Return (seq (next_ref m) (List.length values)),
     mkMemory (heap_alloc (heap m) (next_ref m) values)
              (next_ref m + List.length values)%nat
              (habits m) (db m)).

(** [HabitTracker.load_habits]. *)
Definition load_habits : Tr unit :=
  values <-- on_db load_data ;;
  l <-- allocate values ;;
  set_habits l.

(** [HabitTracker.add_habit]. *)
Definition add_habit (habit : ref) : Tr unit :=
  l <-- self_habits ;;
  _ <-- set_habits (l ++ [habit]) ;;
  save_habits.

(** [HabitTracker.remove_habit]. *)
Definition remove_habit (habit_id : string) : Tr bool :=
  l <-- self_habits ;;
  obj <-- objects ;;
  let initial_count := List.length l in
  _ <-- set_habits
          (filter (fun h => negb (String.eqb (id (obj h)) habit_id)) l) ;;
  l' <-- self_habits ;;
  if (List.length l' <? initial_count)%nat then
    _ <-- save_habits ;;
    tr_ret true
  else tr_ret false.

(** [HabitTracker.get_habit_by_id]: the first tracked habit with the
    id, or None. *)
Definition get_habit_by_id (habit_id : string) : Tr (option ref) :=
  l <-- self_habits ;;
  obj <-- objects ;;
  tr_ret (find (fun habit => String.eqb (id (obj habit)) habit_id) l).

(** [habit.complete_task()] on the object at [habit]. *)
Definition complete_task_at (habit : ref) : Tr unit :=
  fun m w =>
    match complete_task (heap m habit) w with
    | inl e => (inl e, m)
    | inr h' =>
        (py.Return tt,
         mkMemory (heap_set (heap m) habit h') (next_ref m) (habits m)
                  (db m))
    end.

(** [HabitTracker.complete_habit]. *)
Definition complete_habit (habit_id : string) : Tr bool :=
  habit <-- get_habit_by_id habit_id ;;
  match habit with
  | Some r =>
      _ <-- complete_task_at r ;;
      _ <-- save_habits ;;
      tr_ret true
  | None => tr_ret false
  end.

End HabitTracker.

Arguments tr_ret {Store A} _ _ _.
Arguments tr_bind {Store A B} _ _ _ _.
Arguments self_habits {Store} _ _.
Arguments objects {Store} _ _.
Arguments set_habits {Store} _ _ _.
Arguments on_db {Store A} _ _ _.
Arguments allocate {Store} _ _ _.
Arguments save_habits {Store} _ _ _.
Arguments load_habits {Store} _ _ _.
Arguments add_habit {Store} _ _ _ _.
Arguments remove_habit {Store} _ _ _ _.
Arguments get_habit_by_id {Store} _ _ _.
Arguments complete_task_at {Store} _ _ _.
Arguments complete_habit {Store} _ _ _ _.

(** A data manager that keeps the saved habits as they are, for running
    the tracker on examples. *)
Definition snapshot_save (hs : list Habit) (_ : World) (_ : list Habit)
  : py.result unit * list Habit := (py.Return tt, hs).
Definition snapshot_load (_ : World) (s : list Habit)
  : py.result (list Habit) * list Habit := (py.Return s, s).

(** A memory holding the two sample habits, both tracked. *)
Definition sample_memory : Memory (list Habit) :=
  mkMemory
    (heap_alloc (fun _ => daily_idle) 0%nat [daily_two_days; weekly_midweek])
    2%nat [0%nat; 1%nat] [daily_two_days; weekly_midweek].

(** * Calendar arithmetic *)

Section Calendar.

#[local] Ltac Zify.zify_post_hook ::= Z.to_euclidean_division_equations.

Lemma weekday_range (d : date.t) : 0 <= date.weekday d < 7.
Proof. unfold date.weekday. lia. Qed.

Lemma weekday_monday (d : date.t) :
  date.weekday (d - date.weekday d) = 0.
Proof. unfold date.weekday. lia. Qed.

Lemma weekday_shift (d k : Z) :
  date.weekday (d + 7 * k) = date.weekday d.
Proof. unfold date.weekday. lia. Qed.

Lemma monday_le_iff (m d : date.t) :
  date.weekday m = 0 -> (m <= d - date.weekday d <-> m <= d).
Proof. unfold date.weekday. lia. Qed.

Lemma in_week_iff (m d : date.t) :
  date.weekday m = 0 ->
  (m <= d <= m + 6 <-> d - date.weekday d = m).
Proof. unfold date.weekday. lia. Qed.

Lemma monday_gap (a b : date.t) :
  date.weekday a = 0 -> date.weekday b = 0 ->
  b - a = 7 * ((b - a) / 7).
Proof. unfold date.weekday. lia. Qed.

End Calendar.


(** * The [while] loops of [get_current_streak] *)

Lemma streak_loop_step self delta check_date streak :
  streak_loop self delta check_date streak =
  if check_date >=? datetime.date (created_at self) then
    if completed_on self check_date
    then streak_loop self delta (check_date - Z.pos delta) (S streak)
    else streak
  else streak.
Proof.
  funelim (streak_loop self delta check_date streak);
    unfold completed_on;
    repeat match goal with
           | E : _ = true |- _ => rewrite E
           | E : _ = false |- _ => rewrite E
           end;
    reflexivity.
Qed.

(** Induction on the distance of [check_date] above a lower bound. *)
Lemma down_to_ind (lo : Z) (P : Z -> Prop) :
  (forall c, (forall c', lo <= c -> c' < c -> P c') -> P c) ->
  forall c, P c.
Proof.
  intros step c.
  remember (Z.to_nat (c - lo + 1)) as n eqn:En.
  revert c En. induction n as [n IH] using lt_wf_ind. intros c En.
  apply step. intros c' Hlo Hlt.
  apply (IH (Z.to_nat (c' - lo + 1))); [lia | reflexivity].
Qed.

Lemma streak_loop_acc self delta check_date streak :
  streak_loop self delta check_date streak
  = (streak + streak_loop self delta check_date 0)%nat.
Proof.
  revert streak.
  induction check_date as [c IH]
    using (down_to_ind (datetime.date (created_at self))).
  intros streak.
  rewrite (streak_loop_step self delta c streak).
  rewrite (streak_loop_step self delta c 0).
  destruct (Z.geb_spec c (datetime.date (created_at self))) as [Hge | Hlt];
    [| lia].
  destruct (completed_on self c); [| lia].
  rewrite (IH (c - Z.pos delta)) by lia.
  rewrite (IH (c - Z.pos delta) ltac:(lia) ltac:(lia) 1%nat). lia.
Qed.

(** The loop counts exactly the completed periods of the backward walk
    that stay on or after the creation date. *)
Lemma streak_loop_walk self delta top :
  walk_stops_at self (Z.pos delta) (datetime.date (created_at self)) top
    (streak_loop self delta top 0).
Proof.
  induction top as [c IH]
    using (down_to_ind (datetime.date (created_at self))).
  rewrite streak_loop_step.
  destruct (Z.geb_spec c (datetime.date (created_at self))) as [Hge | Hlt].
  - destruct (completed_on self c) eqn:Hc.
    + rewrite streak_loop_acc.
      specialize (IH (c - Z.pos delta) ltac:(lia) ltac:(lia)).
      destruct IH as [Hrun Hstop].
      set (k := streak_loop self delta (c - Z.pos delta) 0) in *.
      split.
      * intros [| i] Hi.
        -- rewrite Z.mul_0_r, Z.sub_0_r. split; [lia | exact Hc].
        -- specialize (Hrun i ltac:(lia)).
           replace (c - Z.pos delta * Z.of_nat (S i))
             with (c - Z.pos delta - Z.pos delta * Z.of_nat i) by lia.
           exact Hrun.
      * replace (c - Z.pos delta * Z.of_nat (1 + k))
          with (c - Z.pos delta - Z.pos delta * Z.of_nat k) by lia.
        exact Hstop.
    + split; [intros i Hi; lia |].
      right. rewrite Z.mul_0_r, Z.sub_0_r. exact Hc.
  - split; [intros i Hi; lia |].
    left. simpl. lia.
Qed.

Lemma walk_stops_at_unique h step lower top k k' :
  walk_stops_at h step lower top k ->
  walk_stops_at h step lower top k' ->
  k = k'.
Proof.
  intros [Hrun Hstop] [Hrun' Hstop'].
  destruct (Nat.lt_trichotomy k k') as [Hlt | [Heq | Hgt]]; [| exact Heq |].
  - destruct (Hrun' k Hlt) as [Hlo Hc].
    destruct Hstop as [Hs | Hs]; [lia | congruence].
  - destruct (Hrun k' Hgt) as [Hlo Hc].
    destruct Hstop' as [Hs | Hs]; [lia | congruence].
Qed.

(** * Sorting the completions and taking the latest *)

Lemma getitem_last {A} (l : list A) (d : A) :
  l <> [] -> py.getitem l (-1) = py.Return (last l d).
Proof.
  intros Hne. unfold py.getitem.
  assert (Hlen : (0 < List.length l)%nat)
    by (destruct l; [congruence | simpl; lia]).
  change (-1 <? 0) with true. cbv iota.
  destruct (Z.leb_spec 0 (-1 + Z.of_nat (List.length l))); [| lia].
  destruct (Z.ltb_spec (-1 + Z.of_nat (List.length l))
              (Z.of_nat (List.length l))); [| lia].
  simpl andb. cbv iota.
  replace (Z.to_nat (-1 + Z.of_nat (List.length l)))
    with (Nat.pred (List.length l)) by lia.
  clear - Hne. induction l as [| a [| b l] IH]; [congruence | reflexivity |].
  change (nth_error (a :: b :: l) (Nat.pred (List.length (a :: b :: l))))
    with (nth_error (b :: l) (Nat.pred (List.length (b :: l)))).
  rewrite IH by discriminate. reflexivity.
Qed.


Lemma leb_total a b : datetime.leb a b = false -> datetime.leb b a = true.
Proof. unfold datetime.leb. lia. Qed.

Lemma leb_date a b : datetime.leb a b = true -> datetime.date a <= datetime.date b.
Proof. unfold datetime.leb. lia. Qed.

Lemma insert_In x y l : In y (datetime.insert x l) <-> y = x \/ In y l.
Proof.
  induction l as [| z l IH]; simpl.
  - intuition congruence.
  - destruct (datetime.leb x z); simpl; rewrite ?IH; intuition congruence.
Qed.

Lemma sorted_In y l : In y (datetime.sorted l) <-> In y l.
Proof.
  induction l as [| x l IH]; simpl; [tauto |].
  rewrite insert_In, IH. intuition congruence.
Qed.

Lemma insert_ascending x l :
  StronglySorted (fun a b => datetime.date a <= datetime.date b) l ->
  StronglySorted (fun a b => datetime.date a <= datetime.date b)
    (datetime.insert x l).
Proof.
  induction 1 as [| y l Hl IH Hy]; simpl.
  - constructor; constructor.
  - destruct (datetime.leb x y) eqn:E.
    + apply leb_date in E.
      constructor; [constructor; assumption |].
      constructor; [exact E |].
      rewrite Forall_forall in *. intros z Hz. specialize (Hy z Hz). lia.
    + apply leb_total, leb_date in E.
      constructor; [exact IH |].
      rewrite Forall_forall in *. intros z Hz.
      apply insert_In in Hz. destruct Hz as [-> | Hz]; auto.
Qed.

Lemma sorted_ascending l :
  StronglySorted (fun a b => datetime.date a <= datetime.date b)
    (datetime.sorted l).
Proof.
  induction l as [| x l IH]; simpl;
    [constructor | apply insert_ascending, IH].
Qed.

Lemma last_In {A} (l : list A) (d : A) : l <> [] -> In (last l d) l.
Proof.
  induction l as [| a [| b l] IH]; intros Hne;
    [congruence | left; reflexivity |].
  right. apply IH. discriminate.
Qed.

Lemma ascending_last l d c :
  StronglySorted (fun a b => datetime.date a <= datetime.date b) l ->
  In c l -> datetime.date c <= datetime.date (last l d).
Proof.
  induction 1 as [| a l Hl IH Ha]; intros Hc; [destruct Hc |].
  destruct l as [| b l]; [destruct Hc as [-> | []]; simpl; lia |].
  change (last (a :: b :: l) d) with (last (b :: l) d).
  destruct Hc as [-> | Hc]; [| apply IH, Hc].
  rewrite Forall_forall in Ha. apply Ha, last_In. discriminate.
Qed.

(** [sorted(completions)[-1]] exists for a non-empty list, is one of the
    completions, and no completion has a later date. *)
Lemma latest_completion_spec (cs : list datetime.t) :
  cs <> [] ->
  exists latest,
    py.getitem (datetime.sorted cs) (-1) = py.Return latest
    /\ In latest cs
    /\ (forall c, In c cs -> datetime.date c <= datetime.date latest).
Proof.
  intros Hne. destruct cs as [| c0 cs]; [congruence |].
  assert (Hs : datetime.sorted (c0 :: cs) <> []).
  { intros E. assert (H : In c0 (datetime.sorted (c0 :: cs)))
      by (apply sorted_In; left; reflexivity).
    rewrite E in H. exact H. }
  exists (last (datetime.sorted (c0 :: cs)) c0). split; [| split].
  - apply getitem_last, Hs.
  - apply sorted_In, last_In, Hs.
  - intros c Hc. apply ascending_last; [apply sorted_ascending |].
    apply sorted_In, Hc.
Qed.

(** The early-exit test of [get_current_streak], as a test on all
    completions. *)
Lemma latest_before_iff (cs : list datetime.t) latest bound :
  In latest cs ->
  (forall c, In c cs -> datetime.date c <= datetime.date latest) ->
  (datetime.date latest <? bound)
  = forallb (fun c => datetime.date c <? bound) cs.
Proof.
  intros Hin Hmax.
  destruct (forallb _ cs) eqn:E.
  - rewrite forallb_forall in E. apply E, Hin.
  - apply Z.ltb_ge. destruct (Z.ltb_spec (datetime.date latest) bound) as [Hlt | Hge]; [| lia].
    exfalso. enough (forallb (fun c => datetime.date c <? bound) cs = true) by congruence.
    apply forallb_forall. intros c Hc. apply Z.ltb_lt. specialize (Hmax c Hc). lia.
Qed.

(** * [is_task_completed_for_period] and period anchors *)

(** The code's membership test is the specification's: some completion
    has the same period anchor as the target. *)
Lemma completed_on_anchor (h : Habit) (d : date.t) :
  completed_on h d
  = existsb (fun c => periodAnchor (periodicity h) (datetime.date c)
                      =? periodAnchor (periodicity h) d)
            (completions h).
Proof.
  unfold completed_on, is_task_completed_for_period, periodAnchor, py.any.
  destruct (String.eqb (periodicity h) "daily"); [reflexivity |].
  unfold datetime.weekday. cbn [datetime.date].
  induction (completions h) as [| c l IH]; [reflexivity |].
  cbn [existsb]. rewrite IH. f_equal.
  pose proof (in_week_iff (d - date.weekday d) (datetime.date c)
                (weekday_monday d)) as Hw.
  destruct (Z.eqb_spec (datetime.date c - date.weekday (datetime.date c))
              (d - date.weekday d));
    destruct (Z.leb_spec (d - date.weekday d) (datetime.date c));
    destruct (Z.leb_spec (datetime.date c) (d - date.weekday d + 6));
    cbn [andb]; try reflexivity; lia.
Qed.

Lemma periodAnchor_idem cadence d :
  periodAnchor cadence (periodAnchor cadence d) = periodAnchor cadence d.
Proof.
  unfold periodAnchor. destruct (String.eqb cadence "daily"); [reflexivity |].
  rewrite weekday_monday. lia.
Qed.

Lemma periodAnchor_le cadence d : periodAnchor cadence d <= d.
Proof.
  unfold periodAnchor. destruct (String.eqb cadence "daily"); [lia |].
  pose proof (weekday_range d). lia.
Qed.

Lemma periodAnchor_mono cadence a b :
  a <= b -> periodAnchor cadence a <= periodAnchor cadence b.
Proof.
  unfold periodAnchor. destruct (String.eqb cadence "daily"); [lia |].
  intros Hab. apply monday_le_iff; [apply weekday_monday |].
  pose proof (weekday_range a). lia.
Qed.

(** A date is before an anchor exactly when its own anchor is. *)
Lemma before_anchor_iff cadence d n :
  d < periodAnchor cadence n
  <-> periodAnchor cadence d < periodAnchor cadence n.
Proof.
  unfold periodAnchor. destruct (String.eqb cadence "daily"); [lia |].
  pose proof (monday_le_iff (n - date.weekday n) d (weekday_monday n)).
  lia.
Qed.

(** No completion on or after the anchor of a period: not completed. *)
Lemma completed_on_all_before (h : Habit) (n : date.t) :
  forallb (fun c => datetime.date c <? periodAnchor (periodicity h) n)
          (completions h) = true ->
  completed_on h (periodAnchor (periodicity h) n) = false.
Proof.
  intros Hall. rewrite completed_on_anchor, periodAnchor_idem.
  rewrite forallb_forall in Hall.
  destruct (existsb _ _) eqn:E; [| reflexivity].
  apply existsb_exists in E. destruct E as [c [Hc E]].
  specialize (Hall c Hc). apply Z.ltb_lt in Hall.
  apply before_anchor_iff in Hall. lia.
Qed.

(** * [get_current_streak] in closed form *)

Lemma get_current_streak_eq (h : Habit) (w : World) :
  let cadence := periodicity h in
  let top := periodAnchor cadence (datetime.date (wall_clock w)) in
  get_current_streak h w
  = py.Return
      (if forallb (fun c => datetime.date c <? top) (completions h)
       then 0%nat
       else streak_loop h (period_days cadence) top 0).
Proof.
  intros cadence top. unfold get_current_streak.
  destruct (completions h) as [| c0 cs] eqn:Ecs; [reflexivity |].
  cbn [py.not_]. rewrite <- Ecs.
  destruct (latest_completion_spec (completions h)) as [latest [Hget [Hin Hmax]]];
    [congruence |].
  unfold bind, lift, datetime_now, ret. rewrite Hget. cbn [py.Return].
  subst top cadence. unfold periodAnchor, period_days.
  destruct (String.eqb (periodicity h) "daily").
  - rewrite (latest_before_iff _ _ _ Hin Hmax).
    destruct (forallb _ _); reflexivity.
  - rewrite (latest_before_iff _ _ _ Hin Hmax).
    destruct (forallb _ _); reflexivity.
Qed.

(** What [get_current_streak] computes: the backward walk from the
    period of now, bounded below by the creation date. *)
Lemma get_current_streak_walk (h : Habit) (w : World) :
  exists k,
    get_current_streak h w = py.Return k
    /\ walk_stops_at h (Z.pos (period_days (periodicity h)))
         (datetime.date (created_at h))
         (periodAnchor (periodicity h) (datetime.date (wall_clock w))) k.
Proof.
  rewrite get_current_streak_eq. cbv zeta.
  destruct (forallb _ _) eqn:E; eexists; (split; [reflexivity |]).
  - split; [intros i Hi; lia |].
    right. rewrite Z.mul_0_r, Z.sub_0_r.
    apply completed_on_all_before, E.
  - apply streak_loop_walk.
Qed.

(** * The scan of [get_longest_streak] *)

Lemma run_at_bound l i n :
  run_at l i n -> (0 < n)%nat -> (i + n <= List.length l)%nat.
Proof.
  intros Hrun Hn.
  assert (H : nth_error l (i + (n - 1)) <> None)
    by (rewrite (Hrun (n - 1)%nat) by lia; discriminate).
  apply nth_error_Some in H. lia.
Qed.

Lemma run_at_app_l l t i n : run_at l i n -> run_at (l ++ t) i n.
Proof.
  intros Hrun j Hj. rewrite nth_error_app1; [apply Hrun, Hj |].
  apply nth_error_Some. rewrite (Hrun j Hj). discriminate.
Qed.

Lemma run_at_app_inv l t i n :
  run_at (l ++ t) i n -> (i + n <= List.length l)%nat -> run_at l i n.
Proof.
  intros Hrun Hle j Hj. rewrite <- (Hrun j Hj).
  symmetry. apply nth_error_app1. lia.
Qed.

Lemma run_at_shorter l i n m :
  run_at l i n -> (m <= n)%nat -> run_at l (i + (n - m)) m.
Proof.
  intros Hrun Hle j Hj.
  replace (i + (n - m) + j)%nat with (i + (n - m + j))%nat by lia.
  apply Hrun. lia.
Qed.

Lemma run_at_snoc_false l i n :
  run_at (l ++ [false]) i n -> run_at l i n.
Proof.
  intros Hrun. destruct n as [| n]; [intros j Hj; lia |].
  apply (run_at_app_inv l [false]); [exact Hrun |].
  pose proof (run_at_bound _ _ _ Hrun ltac:(lia)) as Hb.
  rewrite length_app in Hb. simpl in Hb.
  destruct (Nat.eq_dec (i + S n) (S (List.length l))) as [E | NE]; [| lia].
  specialize (Hrun n ltac:(lia)).
  replace (i + n)%nat with (List.length l + 0)%nat in Hrun by lia.
  rewrite nth_error_app2 in Hrun by lia.
  replace (List.length l + 0 - List.length l)%nat with 0%nat in Hrun by lia.
  discriminate.
Qed.

(** Invariant of the scan after a prefix [l]: [current_streak] is the
    length of the run of [true] at the end of [l], [longest_streak] the
    longest run in [l]. *)
Lemma scan_invariant (l : list bool) :
  let '(longest_streak, current_streak) :=
    fold_left scan_step l (0%nat, 0%nat) in
  (current_streak <= List.length l)%nat
  /\ run_at l (List.length l - current_streak) current_streak
  /\ (forall m, (m <= List.length l)%nat ->
                run_at l (List.length l - m) m -> (m <= current_streak)%nat)
  /\ is_longest_run l longest_streak.
Proof.
  induction l as [| b l IH] using rev_ind.
  - simpl. repeat split; try lia.
    + intros j Hj; lia.
    + exists 0%nat. intros j Hj; lia.
    + intros i m Hrun. destruct m; [lia |].
      apply run_at_bound in Hrun; simpl in Hrun; lia.
  - rewrite fold_left_app. cbn [fold_left].
    destruct (fold_left scan_step l (0%nat, 0%nat)) as [lg cur].
    destruct IH as [Hcur [Htrail [Hmaxtrail [[i0 Hex] Hub]]]].
    rewrite length_app. cbn [List.length].
    destruct b; cbn [scan_step].
    + (* a completed period extends the current run *)
      assert (Htrail' : run_at (l ++ [true])
                          (List.length l + 1 - S cur) (S cur)).
      { intros j Hj. destruct (Nat.eq_dec j cur) as [-> | NE].
        - replace (List.length l + 1 - S cur + cur)%nat
            with (List.length l + 0)%nat by lia.
          rewrite nth_error_app2 by lia.
          replace (List.length l + 0 - List.length l)%nat with 0%nat by lia.
          reflexivity.
        - replace (List.length l + 1 - S cur)%nat
            with (List.length l - cur)%nat by lia.
          apply (run_at_app_l l [true] _ _ Htrail j). lia. }
      assert (Hmaxtrail' : forall m, (m <= List.length l + 1)%nat ->
                 run_at (l ++ [true]) (List.length l + 1 - m) m ->
                 (m <= S cur)%nat).
      { intros m Hm Hrun. destruct m as [| m]; [lia |].
        enough (m <= cur)%nat by lia.
        apply Hmaxtrail; [lia |].
        apply (run_at_app_inv l [true]); [| lia].
        intros j Hj.
        replace (List.length l - m + j)%nat
          with (List.length l + 1 - S m + j)%nat by lia.
        apply Hrun. lia. }
      repeat split; try lia; try assumption.
      * destruct (Nat.le_gt_cases lg (S cur)) as [Hle | Hgt].
        -- rewrite Nat.max_r by lia. eexists. exact Htrail'.
        -- rewrite Nat.max_l by lia. exists i0. apply run_at_app_l, Hex.
      * intros i m Hrun. destruct m as [| m]; [lia |].
        pose proof (run_at_bound _ _ _ Hrun ltac:(lia)) as Hb.
        rewrite length_app in Hb. cbn [List.length] in Hb.
        destruct (Nat.eq_dec (i + S m) (List.length l + 1)) as [E | NE].
        -- enough (S m <= S cur)%nat by lia.
           apply Hmaxtrail'; [lia |].
           replace (List.length l + 1 - S m)%nat with i by lia. exact Hrun.
        -- enough (S m <= lg)%nat by lia.
           apply (Hub i). apply (run_at_app_inv l [true]); [exact Hrun | lia].
    + (* a missed period resets the current run *)
      repeat split; try lia.
      * intros j Hj; lia.
      * intros m Hm Hrun. apply run_at_snoc_false in Hrun.
        destruct m as [| m]; [lia |].
        apply run_at_bound in Hrun; lia.
      * exists i0. apply run_at_app_l, Hex.
      * intros i m Hrun. apply (Hub i), run_at_snoc_false, Hrun.
Qed.

Lemma scan_is_longest_run (l : list bool) : is_longest_run l (scan l).
Proof.
  unfold scan. pose proof (scan_invariant l) as H.
  destruct (fold_left scan_step l (0%nat, 0%nat)) as [lg cur].
  apply H.
Qed.

Lemma is_longest_run_unique l n m :
  is_longest_run l n -> is_longest_run l m -> n = m.
Proof.
  intros [[i Hi] Hn] [[j Hj] Hm].
  apply Nat.le_antisymm; [apply (Hm i), Hi | apply (Hn j), Hj].
Qed.

(** * Period enumerations *)

Lemma In_range (n i : Z) : In i (py.range n) <-> 0 <= i < n.
Proof.
  unfold py.range. rewrite in_map_iff. split.
  - intros [k [<- Hk]]. apply in_seq in Hk. lia.
  - intros Hi. exists (Z.to_nat i). split; [lia |]. apply in_seq. lia.
Qed.

Lemma length_range (n : Z) : List.length (py.range n) = Z.to_nat n.
Proof. unfold py.range. rewrite length_map, length_seq. reflexivity. Qed.

Lemma nth_error_range (n : Z) (i : nat) :
  (i < Z.to_nat n)%nat -> nth_error (py.range n) i = Some (Z.of_nat i).
Proof.
  intros Hi. unfold py.range.
  rewrite nth_error_map, nth_error_seq.
  destruct (Nat.ltb_spec i (Z.to_nat n)); [reflexivity | lia].
Qed.

Lemma In_affine_range (base step n a : Z) :
  In a (map (fun i => base + i * step) (py.range n))
  <-> exists i, 0 <= i < n /\ a = base + i * step.
Proof.
  rewrite in_map_iff. split.
  - intros [i [<- Hi]]. exists i. split; [apply In_range, Hi | reflexivity].
  - intros [i [Hi ->]]. exists i. split; [reflexivity | apply In_range, Hi].
Qed.

Lemma affine_range_sorted (base step n : Z) :
  0 < step ->
  StronglySorted Z.lt (map (fun i => base + i * step) (py.range n)).
Proof.
  intros Hstep. unfold py.range. generalize (Z.to_nat n) as len.
  generalize 0%nat as start. intros start len. revert start.
  induction len as [| len IH]; intros start; cbn [seq map];
    constructor; [apply IH |].
  rewrite Forall_forall. intros a Ha.
  rewrite in_map_iff in Ha. destruct Ha as [i [<- Hi]].
  rewrite in_map_iff in Hi. destruct Hi as [k [<- Hk]].
  apply in_seq in Hk. nia.
Qed.

(** The periods enumerated by [get_longest_streak] form an arithmetic
    progression from the creation anchor up to the anchor of now. *)
Lemma all_periods_affine (h : Habit) (now : date.t) :
  let cadence := periodicity h in
  let base := periodAnchor cadence (datetime.date (created_at h)) in
  let top := periodAnchor cadence now in
  let step := Z.pos (period_days cadence) in
  exists cnt,
    all_periods h now = map (fun i => base + i * step) (py.range cnt)
    /\ top - base = (cnt - 1) * step.
Proof.
  cbv zeta. unfold all_periods, periodAnchor, period_days.
  destruct (String.eqb (periodicity h) "daily").
  - eexists. split.
    + apply map_ext. intros i. lia.
    + lia.
  - eexists. split; [reflexivity |].
    pose proof (monday_gap _ _
                  (weekday_monday (datetime.date (created_at h)))
                  (weekday_monday now)).
    lia.
Qed.

Lemma periodAnchor_affine cadence base i :
  periodAnchor cadence base = base ->
  periodAnchor cadence (base + i * Z.pos (period_days cadence))
  = base + i * Z.pos (period_days cadence).
Proof.
  unfold periodAnchor, period_days.
  destruct (String.eqb cadence "daily"); [reflexivity |].
  intros Hb. replace (base + i * 7) with (base + 7 * i) by lia.
  rewrite weekday_shift. lia.
Qed.

Lemma anchor_gap cadence a b :
  periodAnchor cadence a = a -> periodAnchor cadence b = b ->
  exists i, b - a = i * Z.pos (period_days cadence).
Proof.
  unfold periodAnchor, period_days.
  destruct (String.eqb cadence "daily"); intros Ha Hb.
  - exists (b - a). lia.
  - exists ((b - a) / 7).
    pose proof (monday_gap a b ltac:(lia) ltac:(lia)). lia.
Qed.

Lemma all_periods_lifetime (h : Habit) (now : date.t) :
  lifetime_periods h now (all_periods h now).
Proof.
  destruct (all_periods_affine h now) as [cnt [-> Htop]].
  set (cadence := periodicity h) in *.
  set (base := periodAnchor cadence (datetime.date (created_at h))) in *.
  set (step := Z.pos (period_days cadence)) in *.
  assert (Hbase : periodAnchor cadence base = base)
    by apply periodAnchor_idem.
  split; [apply affine_range_sorted; subst step; lia |].
  fold cadence. fold base.
  intros a. rewrite In_affine_range. split.
  - intros [i [Hi ->]]. split; [apply periodAnchor_affine, Hbase |].
    subst step. nia.
  - intros [Ha [Hlo Hhi]].
    destruct (anchor_gap cadence base a Hbase Ha) as [i Hi].
    exists i. fold step in Hi. split; [subst step; nia | lia].
Qed.

Lemma sorted_lt_unique (l l' : list Z) :
  StronglySorted Z.lt l -> StronglySorted Z.lt l' ->
  (forall a, In a l <-> In a l') -> l = l'.
Proof.
  intros Hl. revert l'. induction Hl as [| x l Hl IH Hx];
    intros l' Hl' Heq.
  - destruct l' as [| y l']; [reflexivity |].
    destruct (proj2 (Heq y) (or_introl eq_refl)).
  - destruct Hl' as [| y l' Hl' Hy].
    + destruct (proj1 (Heq x) (or_introl eq_refl)).
    + rewrite Forall_forall in Hx, Hy.
      assert (x = y).
      { destruct (proj1 (Heq x) (or_introl eq_refl)) as [E | Hin];
          [congruence |].
        destruct (proj2 (Heq y) (or_introl eq_refl)) as [E | Hin'];
          [congruence |].
        specialize (Hx y Hin'). specialize (Hy x Hin). lia. }
      subst y. f_equal. apply IH; [exact Hl' |].
      intros a. split; intros Ha.
      * destruct (proj1 (Heq a) (or_intror Ha)) as [E | Hin];
          [| exact Hin].
        specialize (Hx a Ha). lia.
      * destruct (proj2 (Heq a) (or_intror Ha)) as [E | Hin];
          [| exact Hin].
        specialize (Hy a Ha). lia.
Qed.

(** The enumeration of the lifetime periods is unique. *)
Lemma lifetime_periods_unique (h : Habit) (now : date.t) l l' :
  lifetime_periods h now l -> lifetime_periods h now l' -> l = l'.
Proof.
  intros [Hs Hin] [Hs' Hin']. apply sorted_lt_unique; try assumption.
  intros a. rewrite Hin, Hin'. reflexivity.
Qed.

Lemma completed_on_no_completions (h : Habit) (d : date.t) :
  completions h = [] -> completed_on h d = false.
Proof. intros E. rewrite completed_on_anchor, E. reflexivity. Qed.

Lemma get_longest_streak_eq (h : Habit) (w : World) :
  get_longest_streak h w
  = py.Return
      (if py.not_ (completions h) then 0%nat
       else scan (map (completed_on h)
                    (all_periods h (datetime.date (wall_clock w))))).
Proof.
  unfold get_longest_streak. destruct (py.not_ (completions h)); reflexivity.
Qed.

(** With no completion at all the scan finds no run. *)
Lemma scan_no_completions (h : Habit) (periods : list date.t) :
  completions h = [] -> scan (map (completed_on h) periods) = 0%nat.
Proof.
  intros E.
  destruct (scan_is_longest_run (map (completed_on h) periods))
    as [[i Hrun] _].
  destruct (scan (map (completed_on h) periods)) as [| n]; [reflexivity |].
  specialize (Hrun 0%nat ltac:(lia)).
  apply nth_error_In, in_map_iff in Hrun. destruct Hrun as [d [Hd _]].
  rewrite completed_on_no_completions in Hd by exact E. discriminate.
Qed.

(** Every backward walk of completed periods that stays on or after the
    creation date is a run of the scanned status list. *)
Lemma walk_le_scan (h : Habit) (now : date.t) (k : nat) :
  walk_stops_at h (Z.pos (period_days (periodicity h)))
    (datetime.date (created_at h))
    (periodAnchor (periodicity h) now) k ->
  (k <= scan (map (completed_on h) (all_periods h now)))%nat.
Proof.
  intros [Hrun _]. destruct k as [| k]; [lia |].
  destruct (all_periods_affine h now) as [cnt [-> Htop]].
  set (cadence := periodicity h) in *.
  set (base := periodAnchor cadence (datetime.date (created_at h))) in *.
  set (top := periodAnchor cadence now) in *.
  set (step := Z.pos (period_days cadence)) in *.
  assert (Hstep : 0 < step) by (subst step; lia).
  assert (Hbase : base <= datetime.date (created_at h))
    by apply periodAnchor_le.
  pose proof (Hrun k ltac:(lia)) as [Hlo _].
  assert (Hk : Z.of_nat (S k) <= cnt) by nia.
  apply (proj2 (scan_is_longest_run _) (Z.to_nat cnt - S k)%nat).
  intros j Hj.
  rewrite nth_error_map, nth_error_map, nth_error_range by lia.
  cbn [option_map]. f_equal.
  destruct (Hrun (k - j)%nat ltac:(lia)) as [_ Hc].
  rewrite <- Hc. f_equal. nia.
Qed.

(** * Scenarios of the test suite

    [today] is Saturday 2025-05-17 (ordinal 739388). *)

Example test_get_current_streak :
  get_current_streak (sample_habit 739388 []) (world_on 739388)
  = py.Return 0%nat
  /\ get_current_streak (sample_habit 739388 [0; 1; 2]) (world_on 739388)
     = py.Return 3%nat
  /\ get_current_streak (sample_habit 739388 [0; 1; 3; 4]) (world_on 739388)
     = py.Return 2%nat.
Proof. repeat split; reflexivity. Qed.

(** Completions 9..7, 5..2 and 1..0 days ago: the only missed days are
    the creation day and day 6, so the longest run is days 5..0. *)
Example test_get_longest_streak :
  get_longest_streak
    (sample_habit 739388 [7; 8; 9; 2; 3; 4; 5; 0; 1]) (world_on 739388)
  = py.Return 6%nat.
Proof. reflexivity. Qed.

(** Completions on the Mondays of this week and of last week. *)
Example test_weekly_current_streak :
  get_current_streak (sample_weekly_habit 739388 [5; 12]) (world_on 739388)
  = py.Return 2%nat.
Proof. reflexivity. Qed.

Example test_get_struggling_habits :
  get_struggling_habits
    [sample_habit 739388 [2; 8]; sample_weekly_habit 739388 [5; 12; 19; 26]]
    default_days (world_on 739388)
  = py.Return [sample_habit 739388 [2; 8]].
Proof. reflexivity. Qed.

Example test_habit_periodicity_validation :
  init "Invalid Habit" "Has invalid periodicity" "monthly" None None None
       (world_on 739388)
  = py.Raise (py.ValueError "Periodicity must be 'daily' or 'weekly'").
Proof. reflexivity. Qed.

(** * Claims *)

Lemma fold_max_init (l : list Z) (init : Z) :
  init <= fold_left Z.max l init.
Proof.
  revert init. induction l as [| y l IH]; intros init; cbn; [lia |].
  specialize (IH (Z.max init y)). lia.
Qed.

Lemma fold_max_ge (l : list Z) (init x : Z) :
  x = init \/ In x l -> x <= fold_left Z.max l init.
Proof.
  intros [-> | Hin]; [apply fold_max_init |].
  revert init. induction l as [| y l IH]; intros init; [destruct Hin |].
  cbn. destruct Hin as [-> | Hin]; [| apply IH, Hin].
  pose proof (fold_max_init l (Z.max init x)). lia.
Qed.

Lemma latestAnchor_ge cadence cs a c :
  latestAnchor cadence cs = Some a -> In c cs ->
  periodAnchor cadence (datetime.date c) <= a.
Proof.
  destruct cs as [| c0 l]; [discriminate |].
  intros [= <-] Hin. apply fold_max_ge.
  destruct Hin as [-> | Hin]; [left; reflexivity | right].
  apply in_map_iff. exists c. split; [reflexivity | exact Hin].
Qed.

(** C4: when the period anchor of the latest completion is strictly
    before the period anchor of now, [get_current_streak] returns 0. *)
Theorem C4_gap_before_now_gives_zero (h : Habit) (w : World) (a : date.t) :
  latestAnchor (periodicity h) (completions h) = Some a ->
  a < periodAnchor (periodicity h) (datetime.date (wall_clock w)) ->
  get_current_streak h w = py.Return 0%nat.
Proof.
  intros Hlatest Hlt. rewrite get_current_streak_eq. cbv zeta.
  replace (forallb _ (completions h)) with true; [reflexivity |].
  symmetry. apply forallb_forall. intros c Hc. apply Z.ltb_lt.
  apply before_anchor_iff.
  pose proof (latestAnchor_ge _ _ _ _ Hlatest Hc). lia.
Qed.

Lemma C4_witness :
  latestAnchor (periodicity daily_two_days) (completions daily_two_days)
  = Some 739387
  /\ 739387 < periodAnchor (periodicity daily_two_days)
                (datetime.date (wall_clock (world_on 739388)))
  /\ get_current_streak daily_two_days (world_on 739388) = py.Return 0%nat.
Proof.
  split; [reflexivity |]. split; [reflexivity |].
  apply (C4_gap_before_now_gives_zero daily_two_days (world_on 739388) 739387);
    reflexivity.
Defined.

(** C6: [get_longest_streak] returns the maximum length of a run of
    consecutive completed periods over the enumeration of all period
    anchors from the creation period through the period of the current
    time (that enumeration is unique, [lifetime_periods_unique]), and 0
    for a habit with no completions. *)
Theorem C6_longest_streak_is_longest_run (h : Habit) (w : World) :
  exists (periods : list date.t) (n : nat),
    lifetime_periods h (datetime.date (wall_clock w)) periods
    /\ get_longest_streak h w = py.Return n
    /\ is_longest_run (map (completed_on h) periods) n
    /\ (completions h = [] -> n = 0%nat).
Proof.
  exists (all_periods h (datetime.date (wall_clock w))).
  rewrite get_longest_streak_eq.
  destruct (completions h) as [| c0 cs] eqn:E; cbn [py.not_].
  - exists 0%nat.
    split; [apply all_periods_lifetime |].
    split; [reflexivity |]. split; [| reflexivity].
    rewrite <- (scan_no_completions h
                  (all_periods h (datetime.date (wall_clock w))) E).
    apply scan_is_longest_run.
  - eexists. split; [apply all_periods_lifetime |].
    split; [reflexivity |]. split; [apply scan_is_longest_run |].
    discriminate.
Qed.

(** C7: the longest streak is never smaller than the current streak,
    both taken at the same reading of the clock. *)
Theorem C7_longest_ge_current (h : Habit) (w : World) :
  exists current longest : nat,
    get_current_streak h w = py.Return current
    /\ get_longest_streak h w = py.Return longest
    /\ (current <= longest)%nat.
Proof.
  destruct (get_current_streak_walk h w) as [k [Hk Hwalk]].
  exists k. rewrite get_longest_streak_eq. eexists.
  split; [exact Hk |]. split; [reflexivity |].
  destruct (completions h) as [| c0 cs] eqn:E; cbn [py.not_].
  - rewrite get_current_streak_eq, E in Hk. cbn in Hk.
    injection Hk as <-. lia.
  - apply walk_le_scan, Hwalk.
Qed.

Lemma filter_nil_iff {A} (p : A -> bool) (l : list A) :
  filter p l = [] <-> forall x, In x l -> p x = false.
Proof.
  induction l as [| a l IH]; cbn; [tauto |].
  destruct (p a) eqn:E.
  - split; [discriminate |]. intros H.
    specialize (H a (or_introl eq_refl)). congruence.
  - rewrite IH. split.
    + intros H x [<- | Hx]; auto.
    + intros H x Hx. apply H. right. exact Hx.
Qed.



Lemma count_fold (h : Habit) (l : list date.t) (c b : nat) :
  fold_left (count_step h) l (c, b)
  = ((c + List.length (filter (completed_on h) l))%nat,
     (b + List.length (filter (fun d => negb (completed_on h d)) l))%nat).
Proof.
  revert c b. induction l as [| d l IH]; intros c b; cbn [fold_left filter].
  - cbn. f_equal; lia.
  - unfold count_step at 2. fold (completed_on h d).
    destruct (completed_on h d); cbn [negb List.length]; rewrite IH;
      f_equal; lia.
Qed.

(** C5: [is_struggling] is true iff strictly more in-window periods were
    missed than completed and there is at least one in-window period; no
    in-window period, or a tie, gives false. *)
Theorem C5_struggling_iff_more_missed (today : date.t) (days : Z)
    (h : Habit) :
  let periods := check_dates today days h in
  let completed := List.length (filter (completed_on h) periods) in
  let missed :=
    List.length (filter (fun d => negb (completed_on h d)) periods) in
  (is_struggling today days h = true
   <-> (completed < missed)%nat /\ (0 < missed + completed)%nat)
  /\ (periods = [] -> is_struggling today days h = false)
  /\ (missed = completed -> is_struggling today days h = false)
  /\ (missed + completed)%nat = List.length periods.
Proof.
  cbv zeta. unfold is_struggling. rewrite count_fold. cbn [Nat.add].
  set (completed := List.length (filter (completed_on h) _)).
  set (missed := List.length (filter (fun d => negb (completed_on h d)) _)).
  assert (Htotal : (missed + completed)%nat
                   = List.length (check_dates today days h)).
  { subst missed completed.
    induction (check_dates today days h) as [| d l IH]; [reflexivity |].
    cbn [filter]. destruct (completed_on h d); cbn [negb List.length]; lia. }
  split; [split | split; [| split]].
  - intros H. apply andb_true_iff in H. destruct H as [H1 H2].
    apply Nat.ltb_lt in H1, H2. split; assumption.
  - intros [H1 H2]. apply andb_true_iff.
    split; apply Nat.ltb_lt; assumption.
  - intros E. rewrite E in Htotal. cbn in Htotal.
    apply andb_false_iff. right. apply Nat.ltb_ge. lia.
  - intros E. apply andb_false_iff. left. apply Nat.ltb_ge. lia.
  - exact Htotal.
Qed.


(** ** Duplicate completions *)

Lemma completed_on_append (h : Habit) (t c : datetime.t) (d : date.t) :
  In c (completions h) ->
  periodAnchor (periodicity h) (datetime.date c)
  = periodAnchor (periodicity h) (datetime.date t) ->
  completed_on (append_completion h t) d = completed_on h d.
Proof.
  intros Hin Hsame. rewrite !completed_on_anchor.
  cbn [append_completion periodicity completions].
  rewrite existsb_app. cbn [existsb]. rewrite orb_false_r.
  destruct (periodAnchor (periodicity h) (datetime.date t)
            =? periodAnchor (periodicity h) d) eqn:E;
    [| apply orb_false_r].
  rewrite orb_true_r. symmetry. apply existsb_exists. exists c.
  split; [exact Hin |]. rewrite Hsame. exact E.
Qed.

Lemma streak_loop_ext (h h' : Habit) delta check_date streak :
  created_at h' = created_at h ->
  (forall d, completed_on h' d = completed_on h d) ->
  streak_loop h' delta check_date streak
  = streak_loop h delta check_date streak.
Proof.
  intros Hcr Hc. revert streak.
  induction check_date as [c IH]
    using (down_to_ind (datetime.date (created_at h))).
  intros streak.
  rewrite (streak_loop_step h'), (streak_loop_step h), Hcr, Hc.
  destruct (Z.geb_spec c (datetime.date (created_at h))); [| reflexivity].
  destruct (completed_on h c); [| reflexivity].
  apply IH; lia.
Qed.

Lemma is_struggling_ext (h h' : Habit) today days :
  periodicity h' = periodicity h ->
  created_at h' = created_at h ->
  (forall d, completed_on h' d = completed_on h d) ->
  is_struggling today days h' = is_struggling today days h.
Proof.
  intros Hp Hcr Hc. unfold is_struggling. rewrite !count_fold.
  unfold check_dates. rewrite Hp, Hcr.
  rewrite (filter_ext _ _ Hc).
  rewrite (filter_ext (fun d => negb (completed_on h' d))
             (fun d => negb (completed_on h d)))
    by (intros d; rewrite Hc; reflexivity).
  reflexivity.
Qed.

(** C8: appending a timestamp whose period already holds a completion
    changes none of the current streak, the longest streak and the
    struggling classification. *)
Theorem C8_duplicate_in_period_is_harmless (h : Habit) (t c : datetime.t)
    (days : Z) (w : World) :
  In c (completions h) ->
  periodAnchor (periodicity h) (datetime.date c)
  = periodAnchor (periodicity h) (datetime.date t) ->
  let h' := append_completion h t in
  get_current_streak h' w = get_current_streak h w
  /\ get_longest_streak h' w = get_longest_streak h w
  /\ is_struggling (datetime.date (wall_clock w)) days h'
     = is_struggling (datetime.date (wall_clock w)) days h.
Proof.
  intros Hin Hsame h'.
  assert (Hc : forall d, completed_on h' d = completed_on h d)
    by (intros d; apply completed_on_append with (c := c); assumption).
  assert (Hne : py.not_ (completions h) = false)
    by (destruct (completions h); [destruct Hin | reflexivity]).
  assert (Hne' : py.not_ (completions h') = false)
    by (cbn; destruct (completions h); reflexivity).
  assert (Hs : forall today,
             is_struggling today days h' = is_struggling today days h)
    by (intros today; apply is_struggling_ext; [reflexivity .. | exact Hc]).
  split; [| split].
  - rewrite !get_current_streak_eq. cbv zeta.
    change (periodicity h') with (periodicity h).
    rewrite (streak_loop_ext h h') by (reflexivity || exact Hc).
    f_equal. f_equal.
    change (completions h') with (completions h ++ [t])%list.
    rewrite forallb_app. cbn [forallb]. rewrite andb_true_r.
    destruct (forallb _ (completions h)) eqn:E; [| reflexivity].
    rewrite forallb_forall in E. specialize (E c Hin).
    cbn [andb]. apply Z.ltb_lt, before_anchor_iff in E.
    rewrite Hsame in E. apply before_anchor_iff, Z.ltb_lt in E.
    rewrite E. reflexivity.
  - rewrite !get_longest_streak_eq, Hne, Hne'.
    change (all_periods h') with (all_periods h).
    rewrite (map_ext _ _ Hc). reflexivity.
  - apply Hs.
Qed.

Lemma C8_witness :
  let t := datetime.combine 739387 (noon + 1) in
  In (datetime.combine 739387 noon) (completions daily_two_days)
  /\ get_current_streak (append_completion daily_two_days t)
       (world_on 739387)
     = get_current_streak daily_two_days (world_on 739387).
Proof.
  intros t. split; [right; left; reflexivity |].
  apply (C8_duplicate_in_period_is_harmless daily_two_days t
           (datetime.combine 739387 noon) 30 (world_on 739387));
    [right; left; reflexivity | reflexivity].
Defined.

(** ** The ambient clock *)




Example current_streak_reads_clock :
  get_current_streak daily_two_days (world_on 739387) = py.Return 2%nat
  /\ get_current_streak daily_two_days (world_on 739388) = py.Return 0%nat.
Proof. split; reflexivity. Qed.

Example longest_streak_reads_clock :
  get_longest_streak daily_two_days (world_on 739386) = py.Return 1%nat
  /\ get_longest_streak daily_two_days (world_on 739387) = py.Return 2%nat.
Proof. split; reflexivity. Qed.

Example struggling_reads_clock :
  get_struggling_habits [daily_two_days] default_days (world_on 739387)
  = py.Return []
  /\ get_struggling_habits [daily_two_days] default_days (world_on 739390)
     = py.Return [daily_two_days].
Proof. split; reflexivity. Qed.

(** ** Construction and totality *)



(** ** The current streak and the creation period *)

(** When the creation date is itself a period anchor (every daily habit,
    and a weekly habit created on a Monday), [get_current_streak] meets
    the contract of [currentStreak]. *)
Lemma get_current_streak_contract (h : Habit) (w : World) :
  periodAnchor (periodicity h) (datetime.date (created_at h))
  = datetime.date (created_at h) ->
  exists k,
    get_current_streak h w = py.Return k
    /\ is_current_streak h (datetime.date (wall_clock w)) k.
Proof.
  intros Hanchor. destruct (get_current_streak_walk h w) as [k [Hk Hwalk]].
  exists k. split; [exact Hk |].
  unfold is_current_streak. rewrite Hanchor. exact Hwalk.
Qed.

(** C1 at a weekly habit created on Wednesday 2025-05-14 and completed
    on Thursday, read on Friday of the same week: the contract counts
    the creation week (streak 1, as [get_longest_streak] does), the code
    returns 0. *)
Theorem C1_creation_week_not_counted :
  get_current_streak weekly_midweek (world_on 739387) = py.Return 0%nat
  /\ is_current_streak weekly_midweek 739387 1
  /\ ~ is_current_streak weekly_midweek 739387 0
  /\ get_longest_streak weekly_midweek (world_on 739387)
     = py.Return 1%nat.
Proof.
  assert (H1 : is_current_streak weekly_midweek 739387 1).
  { split.
    - intros i Hi. assert (i = 0%nat) as -> by lia.
      split; [vm_compute; discriminate | reflexivity].
    - left. reflexivity. }
  split; [reflexivity |]. split; [exact H1 |]. split; [| reflexivity].
  intros H0. pose proof (walk_stops_at_unique _ _ _ _ _ _ H0 H1).
  discriminate.
Qed.

(** ** The window of [is_struggling] *)

Lemma In_check_dates (h : Habit) (today : date.t) (days : Z) (a : date.t) :
  let cadence := periodicity h in
  In a (check_dates today days h)
  <-> (exists i, 0 <= i < periods_to_check cadence days
                 /\ a = periodAnchor cadence today
                        - i * Z.pos (period_days cadence))
      /\ datetime.date (created_at h) <= a.
Proof.
  cbv zeta. unfold check_dates, periods_to_check, periodAnchor, period_days.
  destruct (String.eqb (periodicity h) "daily");
    rewrite filter_In, in_map_iff;
    (split; [intros [[i [<- Hi]] Hge] | intros [[i [Hi ->]] Hge]]).
  - apply In_range in Hi. split; [exists i; split; [lia | lia] | lia].
  - split; [exists i; split; [lia | apply In_range; lia] | lia].
  - apply In_range in Hi. split; [exists i; split; [lia | lia] | lia].
  - split; [exists i; split; [lia | apply In_range; lia] | lia].
Qed.

Lemma check_dates_NoDup (h : Habit) (today : date.t) (days : Z) :
  NoDup (check_dates today days h).
Proof.
  assert (Hrange : forall n, NoDup (py.range n)).
  { intros n. unfold py.range.
    apply Finite.Injective_map_NoDup; [| apply seq_NoDup].
    intros x y. apply Nat2Z.inj. }
  unfold check_dates.
  destruct (String.eqb (periodicity h) "daily");
    apply NoDup_filter, Finite.Injective_map_NoDup; try apply Hrange;
    intros x y; lia.
Qed.

(** C2 (as the code has it): [is_struggling] classifies each anchor at
    most once, and only anchors of the form [anchor(today) - i * period]
    with [0 <= i < days] (daily) or [0 <= i <= days // 7] (weekly) that
    are on or after the creation anchor; every such anchor on or after
    the creation date is classified.  For a daily habit these are
    exactly the days of [(today - days, today]] on or after creation. *)
Theorem C2_window_of_is_struggling (h : Habit) (today : date.t) (days : Z) :
  let cadence := periodicity h in
  let top := periodAnchor cadence today in
  let step := Z.pos (period_days cadence) in
  let count := periods_to_check cadence days in
  let created := datetime.date (created_at h) in
  NoDup (check_dates today days h)
  /\ (forall a, In a (check_dates today days h) ->
        periodAnchor cadence a = a
        /\ (exists i, 0 <= i < count /\ a = top - i * step)
        /\ periodAnchor cadence created <= a)
  /\ (forall i, 0 <= i < count -> created <= top - i * step ->
        In (top - i * step) (check_dates today days h))
  /\ (cadence = "daily" ->
      forall a, In a (check_dates today days h)
                <-> today - days < a <= today
                    /\ periodAnchor cadence created <= a).
Proof.
  cbv zeta. split; [apply check_dates_NoDup |]. split; [| split].
  - intros a Ha. apply In_check_dates in Ha. cbv zeta in Ha.
    destruct Ha as [[i [Hi ->]] Hge]. split; [| split].
    + replace (periodAnchor (periodicity h) today
               - i * Z.pos (period_days (periodicity h)))
        with (periodAnchor (periodicity h) today
              + (- i) * Z.pos (period_days (periodicity h))) by lia.
      apply periodAnchor_affine, periodAnchor_idem.
    + exists i. split; [exact Hi | reflexivity].
    + pose proof (periodAnchor_le (periodicity h)
                    (datetime.date (created_at h))). lia.
  - intros i Hi Hge. apply In_check_dates. cbv zeta.
    split; [exists i; split; [exact Hi | reflexivity] | exact Hge].
  - intros Hdaily a. rewrite In_check_dates. cbv zeta.
    unfold periods_to_check, periodAnchor, period_days.
    rewrite Hdaily. cbn [String.eqb Ascii.eqb Bool.eqb].
    split.
    + intros [[i [Hi ->]] Hge]. lia.
    + intros [Hw Hge]. split; [exists (today - a); lia | lia].
Qed.

(** A weekly habit on Sunday 2025-05-18 with the default 30-day window:
    the fifth week checked starts on Monday 2025-04-14, 34 days back. *)
Example weekly_anchor_before_window :
  In (739389 - 34)
     (check_dates 739389 default_days
        (mkHabit "w2" "Grocery Shopping" "Buy groceries for the week"
           "weekly" (datetime.combine 739300 noon) []))
  /\ 739389 - 34 < 739389 - default_days.
Proof. split; [vm_compute; do 4 right; left; reflexivity | reflexivity]. Qed.

(** C2 as stated fails: for a daily habit created 20 days earlier and a
    10-day window, the day [today - 10] lies in the closed interval but
    is not classified. *)
Lemma C2_counterexample :
  ~ (forall a,
       In a (check_dates 739388 10 daily_idle)
       <-> window_anchor_claimed daily_idle 739388 10 a).
Proof.
  intros H. destruct (H 739378) as [_ Hin].
  assert (Hclaimed : window_anchor_claimed daily_idle 739388 10 739378).
  { unfold window_anchor_claimed. cbn. lia. }
  specialize (Hin Hclaimed). vm_compute in Hin.
  repeat (destruct Hin as [Hin | Hin]; [discriminate Hin |]).
  exact Hin.
Qed.

(** * Further properties of the [Habit] methods *)

Lemma completed_time_irrelevant (h : Habit) (t : datetime.t) :
  is_task_completed_for_period h t = completed_on h (datetime.date t).
Proof. destruct t as [d tm]. reflexivity. Qed.

Lemma completed_on_anchor_of (h : Habit) (d : date.t) :
  completed_on h (periodAnchor (periodicity h) d) = completed_on h d.
Proof. rewrite !completed_on_anchor, periodAnchor_idem. reflexivity. Qed.

(** X1: [is_task_completed_for_period] answers whether some completion
    lies in the period of the target: for a daily habit on the same
    calendar day, for a weekly habit in the same Monday-to-Sunday week;
    the time of day of the target and of the completions plays no
    role. *)
Theorem completed_iff_same_period (h : Habit) (t : datetime.t) :
  is_task_completed_for_period h t = true
  <-> exists c,
        In c (completions h)
        /\ periodAnchor (periodicity h) (datetime.date c)
           = periodAnchor (periodicity h) (datetime.date t).
Proof.
  rewrite completed_time_irrelevant, completed_on_anchor.
  rewrite existsb_exists. split; intros [c [Hc E]]; exists c;
    (split; [exact Hc |]); apply Z.eqb_eq; exact E.
Qed.

(** X2: what [get_current_streak] counts.  It returns the number [k] of
    periods, walking back from the period of now, that are completed and
    whose anchor is on or after the creation date; the period after
    these is missed or starts before the creation date. *)
Theorem current_streak_counts_back_from_now (h : Habit) (w : World) :
  let cadence := periodicity h in
  let top := periodAnchor cadence (datetime.date (wall_clock w)) in
  let step := Z.pos (period_days cadence) in
  exists k,
    get_current_streak h w = py.Return k
    /\ (forall i, (i < k)%nat ->
          datetime.date (created_at h) <= top - step * Z.of_nat i
          /\ is_task_completed_for_period h
               (datetime.combine (top - step * Z.of_nat i)
                  datetime.min_time) = true)
    /\ (top - step * Z.of_nat k < datetime.date (created_at h)
        \/ is_task_completed_for_period h
             (datetime.combine (top - step * Z.of_nat k)
                datetime.min_time) = false).
Proof.
  cbv zeta. destruct (get_current_streak_walk h w) as [k [Hk [Hrun Hstop]]].
  exists k. split; [exact Hk |]. split; [exact Hrun | exact Hstop].
Qed.

(** X3: the current streak is 0 exactly when the period of now holds no
    completion or starts before the creation date. *)
Theorem current_streak_zero_iff (h : Habit) (w : World) :
  let top := periodAnchor (periodicity h) (datetime.date (wall_clock w)) in
  get_current_streak h w = py.Return 0%nat
  <-> is_task_completed_for_period h (wall_clock w) = false
      \/ top < datetime.date (created_at h).
Proof.
  cbv zeta. rewrite completed_time_irrelevant, <- completed_on_anchor_of.
  destruct (get_current_streak_walk h w) as [k [Hk [Hrun Hstop]]].
  rewrite Hk. split.
  - intros [= ->]. rewrite Z.mul_0_r, Z.sub_0_r in Hstop. tauto.
  - intros Hzero. destruct k as [| k]; [reflexivity |].
    destruct (Hrun 0%nat ltac:(lia)) as [Hlo Hc].
    rewrite Z.mul_0_r, Z.sub_0_r in Hlo, Hc.
    destruct Hzero as [Hz | Hz]; [congruence | lia].
Qed.

Lemma completed_on_append_mono (h : Habit) (t : datetime.t) (d : date.t) :
  completed_on h d = true -> completed_on (append_completion h t) d = true.
Proof.
  rewrite !completed_on_anchor.
  cbn [append_completion periodicity completions].
  rewrite existsb_app. intros ->. reflexivity.
Qed.

(** X4: [complete_task] appends the clock reading to the completions and
    leaves the other attributes alone; afterwards the period of now is
    completed, and the current streak at that clock reading is at least
    1 provided the anchor of now is not before the creation date. *)
Theorem complete_task_starts_streak (h : Habit) (w : World) :
  exists h',
    complete_task h w = py.Return h'
    /\ completions h' = (completions h ++ [wall_clock w])%list
    /\ (id h', name h', description h', periodicity h', created_at h')
       = (id h, name h, description h, periodicity h, created_at h)
    /\ is_task_completed_for_period h' (wall_clock w) = true
    /\ (datetime.date (created_at h)
        <= periodAnchor (periodicity h) (datetime.date (wall_clock w)) ->
        exists k, get_current_streak h' w = py.Return (S k)).
Proof.
  set (h' := append_completion h (wall_clock w)).
  assert (Hdone : completed_on h' (datetime.date (wall_clock w)) = true).
  { rewrite completed_on_anchor. apply existsb_exists.
    exists (wall_clock w). split; [| apply Z.eqb_refl].
    apply in_or_app. right. left. reflexivity. }
  exists h'. split; [reflexivity |]. split; [reflexivity |].
  split; [reflexivity |].
  split; [rewrite completed_time_irrelevant; exact Hdone |].
  intros Hcreated.
  destruct (get_current_streak_walk h' w) as [k [Hk [_ Hstop]]].
  destruct k as [| k]; [exfalso | exists k; exact Hk].
  rewrite Z.mul_0_r, Z.sub_0_r in Hstop.
  change (periodicity h') with (periodicity h) in Hstop.
  change (created_at h') with (created_at h) in Hstop.
  destruct Hstop as [Hlt | Hmiss]; [lia |].
  change (periodicity h) with (periodicity h') in Hmiss.
  rewrite completed_on_anchor_of in Hmiss. congruence.
Qed.

Lemma filter_length_le {A} (p q : A -> bool) (l : list A) :
  (forall x, p x = true -> q x = true) ->
  (List.length (filter p l) <= List.length (filter q l))%nat.
Proof.
  intros Hpq. induction l as [| a l IH]; [reflexivity |].
  cbn [filter]. destruct (p a) eqn:Ep.
  - rewrite (Hpq a Ep). cbn [List.length]. lia.
  - destruct (q a); cbn [List.length]; lia.
Qed.

Lemma run_at_map_mono {A} (f g : A -> bool) (l : list A) (i n : nat) :
  (forall x, f x = true -> g x = true) ->
  run_at (map f l) i n -> run_at (map g l) i n.
Proof.
  intros Hfg Hrun j Hj. specialize (Hrun j Hj).
  rewrite nth_error_map in *.
  destruct (nth_error l (i + j)) as [x |]; [| discriminate].
  cbn in *. injection Hrun as Hx. rewrite (Hfg x Hx). reflexivity.
Qed.

(** X5: recording one more completion, with any timestamp, never lowers
    the current streak or the longest streak, and never turns a habit
    that is not struggling into a struggling one. *)
Theorem append_completion_monotone (h : Habit) (t : datetime.t)
    (days : Z) (w : World) :
  let h' := append_completion h t in
  exists current current' longest longest' : nat,
    get_current_streak h w = py.Return current
    /\ get_current_streak h' w = py.Return current'
    /\ (current <= current')%nat
    /\ get_longest_streak h w = py.Return longest
    /\ get_longest_streak h' w = py.Return longest'
    /\ (longest <= longest')%nat
    /\ (is_struggling (datetime.date (wall_clock w)) days h' = true ->
        is_struggling (datetime.date (wall_clock w)) days h = true).
Proof.
  intros h'.
  assert (Hmono : forall d, completed_on h d = true ->
                            completed_on h' d = true).
  { intros d. rewrite !completed_on_anchor.
    cbn [h' append_completion periodicity completions].
    rewrite existsb_app. intros ->. reflexivity. }
  destruct (get_current_streak_walk h w) as [k [Hk [Hrun _]]].
  destruct (get_current_streak_walk h' w) as [k' [Hk' [_ Hstop']]].
  exists k, k'. rewrite !get_longest_streak_eq. do 2 eexists.
  split; [exact Hk |]. split; [exact Hk' |].
  split; [| split; [reflexivity |]; split; [reflexivity |]; split].
  - destruct (Nat.le_gt_cases k k') as [Hle | Hgt]; [exact Hle | exfalso].
    destruct (Hrun k' Hgt) as [Hlo Hc]. apply Hmono in Hc.
    change (periodicity h') with (periodicity h) in Hstop'.
    change (created_at h') with (created_at h) in Hstop'.
    destruct Hstop' as [Hlt | Hmiss]; [lia | congruence].
  - assert (Hne : py.not_ (completions h') = false)
      by (cbn; destruct (completions h); reflexivity).
    rewrite Hne. destruct (py.not_ (completions h)); [lia |].
    change (all_periods h') with (all_periods h).
    destruct (scan_is_longest_run
                (map (completed_on h)
                   (all_periods h (datetime.date (wall_clock w)))))
      as [[i Hi] _].
    apply (proj2 (scan_is_longest_run _) i).
    apply (run_at_map_mono (completed_on h)); assumption.
  - unfold is_struggling. rewrite !count_fold. cbn [Nat.add].
    change (check_dates (datetime.date (wall_clock w)) days h')
      with (check_dates (datetime.date (wall_clock w)) days h).
    set (l := check_dates (datetime.date (wall_clock w)) days h).
    pose proof (filter_length_le (completed_on h) (completed_on h') l Hmono)
      as Hc.
    pose proof (filter_length_le (fun d => negb (completed_on h' d))
                  (fun d => negb (completed_on h d)) l) as Hm.
    assert (Hm' : (List.length (filter (fun d => negb (completed_on h' d)) l)
                   <= List.length
                        (filter (fun d => negb (completed_on h d)) l))%nat).
    { apply Hm. intros d Hd. apply negb_true_iff in Hd.
      apply negb_true_iff. destruct (completed_on h d) eqn:E;
        [apply Hmono in E; congruence | reflexivity]. }
    intros H. apply andb_true_iff in H. destruct H as [H1 H2].
    apply Nat.ltb_lt in H1, H2. apply andb_true_iff.
    split; apply Nat.ltb_lt; lia.
Qed.

Lemma nth_error_firstn_skipn {A} (l : list A) (i n : nat) (x : A) :
  In x (firstn n (skipn i l)) ->
  exists j, (j < n)%nat /\ nth_error l (i + j) = Some x.
Proof.
  intros Hin. apply In_nth_error in Hin. destruct Hin as [j Hj].
  assert (Hlt : (j < n)%nat).
  { assert (H : nth_error (firstn n (skipn i l)) j <> None)
      by (rewrite Hj; discriminate).
    apply nth_error_Some in H. rewrite length_firstn in H. lia. }
  exists j. split; [exact Hlt |].
  rewrite nth_error_firstn in Hj.
  destruct (Nat.ltb_spec j n); [| lia].
  rewrite nth_error_skipn in Hj. exact Hj.
Qed.

Lemma NoDup_firstn_skipn {A} (l : list A) (i n : nat) :
  NoDup l -> NoDup (firstn n (skipn i l)).
Proof.
  intros Hl.
  rewrite <- (firstn_skipn i l) in Hl. apply NoDup_app_remove_l in Hl.
  rewrite <- (firstn_skipn n (skipn i l)) in Hl.
  apply NoDup_app_remove_r in Hl. exact Hl.
Qed.

Lemma sorted_lt_NoDup (l : list Z) : StronglySorted Z.lt l -> NoDup l.
Proof.
  induction 1 as [| a l Hl IH Ha]; constructor; [| exact IH].
  intros Hin. rewrite Forall_forall in Ha. specialize (Ha a Hin). lia.
Qed.

(** X6: the longest streak never exceeds the number of recorded
    completions: every period of a run holds a completion of its own. *)
Theorem longest_streak_le_completions (h : Habit) (w : World) :
  exists n,
    get_longest_streak h w = py.Return n
    /\ (n <= List.length (completions h))%nat.
Proof.
  rewrite get_longest_streak_eq. eexists. split; [reflexivity |].
  destruct (py.not_ (completions h)); [lia |].
  set (periods := all_periods h (datetime.date (wall_clock w))).
  destruct (all_periods_lifetime h (datetime.date (wall_clock w)))
    as [Hsorted Hin]. fold periods in Hsorted, Hin.
  destruct (scan_is_longest_run (map (completed_on h) periods))
    as [[i Hrun] _].
  set (n := scan (map (completed_on h) periods)) in *.
  destruct n as [| n]; [lia |].
  pose proof (run_at_bound _ _ _ Hrun ltac:(lia)) as Hb.
  rewrite length_map in Hb.
  set (run := firstn (S n) (skipn i periods)).
  assert (Hlen : List.length run = S n)
    by (unfold run; rewrite length_firstn, length_skipn; lia).
  rewrite <- Hlen, <- (length_map
    (fun c => periodAnchor (periodicity h) (datetime.date c))
    (completions h)).
  apply NoDup_incl_length.
  - apply NoDup_firstn_skipn, sorted_lt_NoDup, Hsorted.
  - intros a Ha. apply nth_error_firstn_skipn in Ha.
    destruct Ha as [j [Hj Hnth]].
    specialize (Hrun j Hj). rewrite nth_error_map, Hnth in Hrun.
    cbn in Hrun. injection Hrun as Hc.
    rewrite completed_on_anchor in Hc. apply existsb_exists in Hc.
    destruct Hc as [c [Hc E]]. apply Z.eqb_eq in E.
    apply in_map_iff. exists c. split; [| exact Hc].
    rewrite E. apply Hin. eapply nth_error_In. exact Hnth.
Qed.

(** X7: a habit created at the start of a period (any daily habit, a
    weekly habit created on a Monday) and completed in every period from
    creation to now has current streak and longest streak both equal to
    the number of those periods. *)
Theorem unbroken_history_streaks (h : Habit) (w : World) :
  let cadence := periodicity h in
  let created := datetime.date (created_at h) in
  let now := datetime.date (wall_clock w) in
  let periods :=
    Z.to_nat ((periodAnchor cadence now - created)
              / Z.pos (period_days cadence) + 1) in
  periodAnchor cadence created = created ->
  created <= now ->
  (forall d, created <= d <= now -> periodAnchor cadence d = d ->
             is_task_completed_for_period h
               (datetime.combine d datetime.min_time) = true) ->
  get_current_streak h w = py.Return periods
  /\ get_longest_streak h w = py.Return periods.
Proof.
  cbv zeta. intros Hanchor Hcreated Hall.
  set (cadence := periodicity h) in *.
  set (created := datetime.date (created_at h)) in *.
  set (now := datetime.date (wall_clock w)) in *.
  set (top := periodAnchor cadence now).
  set (step := Z.pos (period_days cadence)).
  assert (Hstep : 0 < step) by (subst step; lia).
  assert (Htop : created <= top)
    by (rewrite <- Hanchor; apply periodAnchor_mono, Hcreated).
  assert (Htopnow : top <= now) by apply periodAnchor_le.
  destruct (anchor_gap cadence created top Hanchor
              (periodAnchor_idem cadence now)) as [m Hm].
  fold step in Hm.
  assert (Hm0 : 0 <= m) by nia.
  replace ((top - created) / step) with m
    by (rewrite Hm; symmetry; apply Z.div_mul; lia).
  assert (Hdone : forall i, 0 <= i <= m ->
                    completed_on h (top - step * i) = true).
  { intros i Hi. apply Hall; [nia |].
    replace (top - step * i) with (top + (- i) * step) by lia.
    apply periodAnchor_affine, periodAnchor_idem. }
  split.
  - destruct (get_current_streak_walk h w) as [k [Hk [Hrun Hstop]]].
    rewrite Hk. f_equal.
    fold cadence step created now top in Hrun, Hstop.
    destruct (Z_le_gt_dec (Z.of_nat k) m) as [Hle | Hgt].
    + rewrite (Hdone (Z.of_nat k)) in Hstop by lia.
      destruct Hstop as [Hlt | Hf]; [nia | discriminate].
    + destruct k as [| k]; [lia |].
      destruct (Hrun k ltac:(lia)) as [Hlo _]. nia.
  - rewrite get_longest_streak_eq.
    assert (Hne : py.not_ (completions h) = false).
    { destruct (completions h) eqn:E; [| reflexivity].
      specialize (Hdone 0 ltac:(lia)).
      rewrite (completed_on_no_completions h _ E) in Hdone.
      discriminate. }
    rewrite Hne. f_equal.
    destruct (all_periods_affine h now) as [cnt [Hperiods Hcnt]].
    fold cadence created top step in Hperiods, Hcnt.
    rewrite Hanchor in Hperiods, Hcnt.
    assert (cnt = m + 1) by nia. subst cnt.
    fold now. rewrite Hperiods.
    set (statuses := map (completed_on h)
                       (map (fun i => created + i * step)
                          (py.range (m + 1)))).
    assert (Hlen : List.length statuses = Z.to_nat (m + 1))
      by (unfold statuses; rewrite !length_map, length_range; reflexivity).
    assert (Hrun : run_at statuses 0 (Z.to_nat (m + 1))).
    { intros j Hj. unfold statuses.
      rewrite !nth_error_map, nth_error_range by exact Hj.
      cbn [option_map Nat.add]. f_equal.
      replace (created + Z.of_nat j * step)
        with (top - step * (m - Z.of_nat j)) by nia.
      apply Hdone. lia. }
    apply Nat.le_antisymm.
    + destruct (scan_is_longest_run statuses) as [[i Hi] _].
      destruct (scan statuses) as [| n]; [lia |].
      apply run_at_bound in Hi; lia.
    + apply (proj2 (scan_is_longest_run statuses) 0%nat), Hrun.
Qed.

Lemma unbroken_history_witness :
  get_current_streak daily_two_days (world_on 739387) = py.Return 2%nat
  /\ get_longest_streak daily_two_days (world_on 739387) = py.Return 2%nat.
Proof.
  apply (unbroken_history_streaks daily_two_days (world_on 739387)).
  - reflexivity.
  - cbn. lia.
  - intros d Hd _. cbn in Hd.
    assert (d = 739386 \/ d = 739387) as [-> | ->] by lia; reflexivity.
Defined.

(** * Further properties of the analytics functions *)



Lemma mapM_pure {A B} (f : A -> M B) (g : A -> B) (l : list A) (w : World) :
  (forall a, In a l -> f a w = py.Return (g a)) ->
  mapM f l w = py.Return (map g l).
Proof.
  induction l as [| a l IH]; intros Hf; [reflexivity |].
  cbn [mapM map]. unfold bind.
  rewrite (Hf a (or_introl eq_refl)). cbn [py.Return].
  rewrite IH by (intros x Hx; apply Hf; right; exact Hx).
  reflexivity.
Qed.

(** The scan of [max]: the result splits the list into strictly smaller
    elements before it and elements not larger after it. *)
Lemma max_fold_split {A} (key : A -> nat) (l pre post : list A) (b : A) :
  (forall y, In y pre -> (key y < key b)%nat) ->
  (forall y, In y post -> (key y <= key b)%nat) ->
  exists pre' post',
    (pre ++ b :: post ++ l)%list
    = (pre' ++
       fold_left (fun best y => if (key best <? key y)%nat then y else best)
         l b :: post')%list
    /\ (forall y, In y pre' ->
          (key y < key (fold_left
                          (fun best y => if (key best <? key y)%nat
                                         then y else best) l b))%nat)
    /\ (forall y, In y post' ->
          (key y <= key (fold_left
                           (fun best y => if (key best <? key y)%nat
                                          then y else best) l b))%nat).
Proof.
  revert pre post b. induction l as [| y l IH]; intros pre post b Hpre Hpost.
  - exists pre, post. rewrite app_nil_r. cbn. auto.
  - cbn [fold_left]. destruct (Nat.ltb_spec (key b) (key y)) as [Hlt | Hge].
    + destruct (IH (pre ++ b :: post)%list [] y) as [pre' [post' [E H]]].
      * intros z Hz. apply in_app_or in Hz.
        destruct Hz as [Hz | [<- | Hz]];
          [specialize (Hpre z Hz) | | specialize (Hpost z Hz)]; lia.
      * intros z [].
      * exists pre', post'. split; [| exact H].
        rewrite <- E. cbn [app]. rewrite <- !app_assoc. reflexivity.
    + destruct (IH pre (post ++ [y])%list b) as [pre' [post' [E H]]].
      * exact Hpre.
      * intros z Hz. apply in_app_or in Hz.
        destruct Hz as [Hz | [<- | []]]; [apply Hpost, Hz | lia].
      * exists pre', post'. split; [| exact H].
        rewrite <- E. rewrite <- !app_assoc. reflexivity.
Qed.

(** X9: [get_longest_streak_all] returns [(None, 0)] for no habits;
    otherwise it returns a habit of the list together with its longest
    streak, no habit of the list has a longer one, and among habits with
    equally long streaks the first in the list wins. *)
Theorem longest_streak_all_is_first_maximum (habits : list Habit)
    (w : World) :
  (habits = [] -> get_longest_streak_all habits w = py.Return (None, 0%nat))
  /\ (habits <> [] ->
      exists before best after n,
        get_longest_streak_all habits w = py.Return (Some best, n)
        /\ habits = (before ++ best :: after)%list
        /\ get_longest_streak best w = py.Return n
        /\ (forall h m, In h before ->
              get_longest_streak h w = py.Return m -> (m < n)%nat)
        /\ (forall h m, In h after ->
              get_longest_streak h w = py.Return m -> (m <= n)%nat)).
Proof.
  split; [intros ->; reflexivity |].
  intros Hne. destruct habits as [| h0 hs]; [congruence |].
  set (value := fun h =>
         if py.not_ (completions h) then 0%nat
         else scan (map (completed_on h)
                      (all_periods h (datetime.date (wall_clock w))))).
  assert (Hvalue : forall h, get_longest_streak h w = py.Return (value h))
    by (intros h; apply get_longest_streak_eq).
  unfold get_longest_streak_all. cbn [py.not_]. unfold bind at 1.
  rewrite (mapM_pure _ (fun h => (Some h, value h))).
  2:{ intros h _. unfold bind, ret. rewrite Hvalue. reflexivity. }
  cbn [py.Return]. unfold ret. cbn [map py.max_key].
  destruct (max_fold_split snd (map (fun h => (Some h, value h)) hs)
              [] [] (Some h0, value h0)) as [pre [post [E [Hpre Hpost]]]];
    [intros y [] | intros y [] |].
  cbn [app] in E.
  set (r := fold_left _ _ _) in *.
  change ((Some h0, value h0) :: map (fun h => (Some h, value h)) hs)
    with (map (fun h => (Some h, value h)) (h0 :: hs)) in E.
  apply map_eq_app in E. destruct E as [before [rest [Ehabits [Ebefore E]]]].
  apply map_eq_cons in E. destruct E as [best [after [Erest [Ebest Eafter]]]].
  exists before, best, after, (value best).
  rewrite <- Ebest. split; [reflexivity |].
  split; [rewrite Ehabits, Erest; reflexivity |].
  split; [apply Hvalue |].
  assert (Hkey : snd r = value best) by (rewrite <- Ebest; reflexivity).
  split.
  - intros h m Hin Hm. rewrite Hvalue in Hm. injection Hm as <-.
    rewrite <- Hkey.
    apply (Hpre (Some h, value h)). rewrite <- Ebefore.
    apply in_map_iff. exists h. split; [reflexivity | exact Hin].
  - intros h m Hin Hm. rewrite Hvalue in Hm. injection Hm as <-.
    rewrite <- Hkey.
    apply (Hpost (Some h, value h)). rewrite <- Eafter.
    apply in_map_iff. exists h. split; [reflexivity | exact Hin].
Qed.


(** * The window of [get_struggling_habits] at its edges *)

Lemma check_dates_nil_iff (h : Habit) (today : date.t) (days : Z) :
  check_dates today days h = []
  <-> periods_to_check (periodicity h) days <= 0
      \/ periodAnchor (periodicity h) today
         < datetime.date (created_at h).
Proof.
  split.
  - intros E.
    destruct (Z_le_gt_dec (periods_to_check (periodicity h) days) 0)
      as [Hle | Hgt]; [left; exact Hle | right].
    destruct (Z_lt_ge_dec (periodAnchor (periodicity h) today)
                (datetime.date (created_at h))) as [Hlt | Hge];
      [exact Hlt | exfalso].
    assert (Hin : In (periodAnchor (periodicity h) today)
                    (check_dates today days h)).
    { apply In_check_dates. cbv zeta. split; [| lia].
      exists 0. split; [lia | lia]. }
    rewrite E in Hin. exact Hin.
  - intros Hempty. destruct (check_dates today days h) as [| a l] eqn:E;
      [reflexivity | exfalso].
    assert (Hin : In a (check_dates today days h))
      by (rewrite E; left; reflexivity).
    apply In_check_dates in Hin. cbv zeta in Hin.
    destruct Hin as [[i [Hi ->]] Hge]. destruct Hempty as [Hle | Hlt]; nia.
Qed.

(** X11: [is_struggling] looks at no period at all exactly when the
    window is empty ([days <= 0] for a daily habit, [days < 0] for a
    weekly one) or the period of today starts before the creation date;
    the habit is then not struggling.  A habit without completions is
    struggling in every other case. *)
Theorem struggling_without_periods_or_completions (h : Habit)
    (today : date.t) (days : Z) :
  let no_period :=
    periods_to_check (periodicity h) days <= 0
    \/ periodAnchor (periodicity h) today < datetime.date (created_at h) in
  (periods_to_check (periodicity h) days <= 0
   <-> (if String.eqb (periodicity h) "daily" then days <= 0 else days < 0))
  /\ (no_period -> is_struggling today days h = false)
  /\ (completions h = [] ->
      (is_struggling today days h = true <-> ~ no_period)).
Proof.
  cbv zeta. split; [| split].
  - unfold periods_to_check.
    destruct (String.eqb (periodicity h) "daily"); [reflexivity |].
    pose proof (Z.div_mod days 7 ltac:(lia)).
    pose proof (Z.mod_pos_bound days 7 ltac:(lia)). lia.
  - intros Hno. apply check_dates_nil_iff in Hno.
    unfold is_struggling. rewrite Hno. reflexivity.
  - intros Hnone. rewrite <- check_dates_nil_iff.
    unfold is_struggling. rewrite count_fold. cbn [Nat.add].
    rewrite (filter_ext (completed_on h) (fun _ => false))
      by (intros d; apply completed_on_no_completions, Hnone).
    rewrite (filter_ext (fun d => negb (completed_on h d)) (fun _ => true))
      by (intros d; rewrite completed_on_no_completions by exact Hnone;
          reflexivity).
    destruct (check_dates today days h) as [| a l];
      [cbn; split; [discriminate | congruence] |].
    split; [discriminate | intros _].
    assert (E : filter (fun _ : date.t => false) (a :: l) = [])
      by (apply filter_nil_iff; reflexivity).
    rewrite E. reflexivity.
Qed.



(** * Properties of [HabitTracker] *)

Lemma filter_all {A} (p : A -> bool) (l : list A) :
  (forall x, In x l -> p x = true) -> filter p l = l.
Proof.
  induction l as [| a l IH]; intros H; [reflexivity |].
  cbn [filter]. rewrite (H a (or_introl eq_refl)).
  f_equal. apply IH. intros x Hx. apply H. right. exact Hx.
Qed.

Lemma filter_shorter {A} (p : A -> bool) (l : list A) (x : A) :
  In x l -> p x = false ->
  (List.length (filter p l) < List.length l)%nat.
Proof.
  induction l as [| a l IH]; intros Hin Hx; [destruct Hin |].
  pose proof (filter_length_le p (fun _ => true) l (fun _ _ => eq_refl))
    as Hle.
  rewrite (filter_all (fun _ => true) l (fun _ _ => eq_refl)) in Hle.
  cbn [filter]. destruct Hin as [-> | Hin].
  - rewrite Hx. cbn [List.length]. lia.
  - specialize (IH Hin Hx). destruct (p a); cbn [List.length]; lia.
Qed.

Lemma heap_alloc_below (hp : ref -> Habit) (start : ref)
    (values : list Habit) (r : ref) :
  (r < start)%nat -> heap_alloc hp start values r = hp r.
Proof.
  revert hp start. induction values as [| v values IH];
    intros hp start Hr; [reflexivity |].
  cbn [heap_alloc]. rewrite IH by lia. unfold heap_set.
  destruct (Nat.eqb_spec r start); [lia | reflexivity].
Qed.

Lemma heap_alloc_at (hp : ref -> Habit) (start : ref)
    (values : list Habit) (i : nat) (v : Habit) :
  nth_error values i = Some v ->
  heap_alloc hp start values (start + i)%nat = v.
Proof.
  revert hp start i. induction values as [| v0 values IH];
    intros hp start i Hi; [destruct i; discriminate |].
  cbn [heap_alloc]. destruct i as [| i].
  - injection Hi as ->. rewrite Nat.add_0_r, heap_alloc_below by lia.
    unfold heap_set. rewrite Nat.eqb_refl. reflexivity.
  - replace (start + S i)%nat with (S start + i)%nat by lia.
    apply IH. exact Hi.
Qed.

Lemma find_app_some {A} (p : A -> bool) (l t : list A) (x : A) :
  find p l = Some x -> find p (l ++ t) = Some x.
Proof.
  induction l as [| a l IH]; [discriminate |].
  cbn [app find]. destruct (p a); [intros E; exact E | exact IH].
Qed.

Lemma find_app_none {A} (p : A -> bool) (l t : list A) :
  find p l = None -> find p (l ++ t) = find p t.
Proof.
  induction l as [| a l IH]; [reflexivity |].
  cbn [app find]. destruct (p a); [discriminate | exact IH].
Qed.

(** Runs the monadic code of a tracker method. *)
Ltac tr_run :=
  cbv beta iota zeta delta
    [remove_habit add_habit complete_habit get_habit_by_id save_habits
     load_habits complete_task_at allocate on_db tr_bind
     tr_ret self_habits objects set_habits py.Return];
  cbn [habits heap next_ref db fst snd].

Section HabitTrackerFacts.

Context {Store : Type}.
Variable save_data : list Habit -> World -> Store -> py.result unit * Store.
Variable load_data : World -> Store -> py.result (list Habit) * Store.

(** X13: [remove_habit] with an id that no tracked habit has returns
    False and changes nothing: the list, the objects and the store stay
    as they are, and nothing is saved. *)
Theorem remove_missing_habit (habit_id : string) (m : Memory Store)
    (w : World) :
  (forall r, In r (habits m) -> id (heap m r) <> habit_id) ->
  remove_habit save_data habit_id m w = (py.Return false, m).
Proof.
  intros Hmissing.
  tr_run. rewrite filter_all.
  - rewrite Nat.ltb_irrefl. destruct m; reflexivity.
  - intros r Hr. apply negb_true_iff, String.eqb_neq, Hmissing, Hr.
Qed.

(** X14: [remove_habit] with the id of a tracked habit drops every
    tracked habit with that id and keeps the others in order; it touches
    no object, saves the remaining habits, and returns True unless
    saving raises.  Afterwards the id is not found, and looking up any
    other id gives what it gave before. *)
Theorem remove_present_habit (habit_id : string) (m : Memory Store)
    (w : World) :
  (exists r, In r (habits m) /\ id (heap m r) = habit_id) ->
  let kept :=
    filter (fun r => negb (String.eqb (id (heap m r)) habit_id))
           (habits m) in
  let saved := save_data (map (heap m) kept) w (db m) in
  let '(result, m') := remove_habit save_data habit_id m w in
  habits m' = kept
  /\ (forall r, heap m' r = heap m r)
  /\ db m' = snd saved
  /\ result = match fst saved with
              | inl e => inl e
              | inr _ => py.Return true
              end
  /\ fst (get_habit_by_id habit_id m' w) = py.Return None
  /\ (forall other, other <> habit_id ->
        fst (get_habit_by_id other m' w) = fst (get_habit_by_id other m w)).
Proof.
  intros [r [Hr Hid]]. tr_run.
  set (kept := filter _ (habits m)).
  assert (Hshort : (List.length kept < List.length (habits m))%nat).
  { apply (filter_shorter _ _ r Hr).
    apply negb_false_iff, String.eqb_eq, Hid. }
  destruct (Nat.ltb_spec (List.length kept) (List.length (habits m)));
    [| lia].
  assert (Hgone : find (fun x => String.eqb (id (heap m x)) habit_id) kept
                  = None).
  { destruct (find _ kept) as [x |] eqn:E; [exfalso | reflexivity].
    apply find_some in E. destruct E as [Hx Hidx].
    apply filter_In in Hx. destruct Hx as [_ Hx].
    rewrite Hidx in Hx. discriminate. }
  assert (Hother : forall other, other <> habit_id ->
            find (fun x => String.eqb (id (heap m x)) other) kept
            = find (fun x => String.eqb (id (heap m x)) other) (habits m)).
  { intros other Hne. subst kept. clear - Hne.
    induction (habits m) as [| a l IH]; [reflexivity |].
    cbn [filter find].
    destruct (String.eqb_spec (id (heap m a)) habit_id) as [Ea | Na];
      cbn [negb find].
    - destruct (String.eqb_spec (id (heap m a)) other);
        [congruence | exact IH].
    - destruct (String.eqb (id (heap m a)) other);
        [reflexivity | exact IH]. }
  tr_run.
  destruct (save_data (map (heap m) kept) w (db m)) as [[e | []] db'];
    tr_run;
    (split; [reflexivity |]); (split; [reflexivity |]);
    (split; [reflexivity |]); (split; [reflexivity |]);
    (split; [rewrite Hgone; reflexivity |]);
    intros other Hne; rewrite (Hother other Hne); reflexivity.
Qed.

(** X15: [complete_habit] with an id that no tracked habit has returns
    False and changes nothing. *)
Theorem complete_missing_habit (habit_id : string) (m : Memory Store)
    (w : World) :
  (forall r, In r (habits m) -> id (heap m r) <> habit_id) ->
  complete_habit save_data habit_id m w = (py.Return false, m).
Proof.
  intros Hmissing. tr_run.
  destruct (find _ (habits m)) as [r |] eqn:E; [exfalso | reflexivity].
  apply find_some in E. destruct E as [Hr Hid].
  apply String.eqb_eq in Hid. exact (Hmissing r Hr Hid).
Qed.


(** X17: [add_habit] puts the habit at the end of the tracked list,
    touches no object and saves the whole list.  Looking up an id that
    was tracked before gives the same habit as before; looking up the id
    of the new habit gives the new habit when that id was not tracked
    yet. *)
Theorem add_habit_then_lookup (habit : ref) (m : Memory Store) (w : World) :
  let '(result, m') := add_habit save_data habit m w in
  let saved := save_data (map (heap m) (habits m ++ [habit])) w (db m) in
  habits m' = (habits m ++ [habit])%list
  /\ (forall r, heap m' r = heap m r)
  /\ db m' = snd saved
  /\ result = fst saved
  /\ (forall habit_id r,
        fst (get_habit_by_id habit_id m w) = py.Return (Some r) ->
        fst (get_habit_by_id habit_id m' w) = py.Return (Some r))
  /\ (fst (get_habit_by_id (id (heap m habit)) m w) = py.Return None ->
      fst (get_habit_by_id (id (heap m habit)) m' w)
      = py.Return (Some habit)).
Proof.
  tr_run.
  destruct (save_data _ w (db m)) as [res db'] eqn:Esave; tr_run.
  do 4 (split; [reflexivity |]). split.
  - intros habit_id r [= Hfind]. f_equal. apply find_app_some, Hfind.
  - intros [= Hnone]. f_equal. rewrite find_app_none by exact Hnone.
    cbn. rewrite String.eqb_refl. reflexivity.
Qed.

(** X18: adding a habit whose id is not tracked yet and then removing
    that id gives back the tracked list as it was, and the removal
    returns True unless saving raises. *)
Theorem add_then_remove (habit : ref) (m : Memory Store) (w : World) :
  (forall r, In r (habits m) -> id (heap m r) <> id (heap m habit)) ->
  let '(_, m1) := add_habit save_data habit m w in
  let '(result, m2) := remove_habit save_data (id (heap m habit)) m1 w in
  habits m2 = habits m
  /\ (forall r, heap m2 r = heap m r)
  /\ (result = py.Return true \/ exists e, result = inl e).
Proof.
  intros Hfresh. tr_run.
  destruct (save_data _ w (db m)) as [res db'] eqn:Esave; tr_run.
  rewrite filter_app. cbn [filter].
  rewrite String.eqb_refl. cbn [negb]. rewrite app_nil_r.
  rewrite filter_all
    by (intros r Hr; apply negb_true_iff, String.eqb_neq, Hfresh, Hr).
  rewrite length_app. cbn [List.length].
  destruct (Nat.ltb_spec (List.length (habits m))
              (List.length (habits m) + 1)); [| lia].
  tr_run.
  destruct (save_data (map (heap m) (habits m)) w db') as [[e | []] db''];
    tr_run; (split; [reflexivity |]); (split; [reflexivity |]);
    [right; exists e; reflexivity | left; reflexivity].
Qed.

(** X19: [load_habits] replaces the tracked list by new objects, one per
    loaded habit and in the order loaded; the objects that existed
    before are not touched. *)
Theorem load_habits_allocates (m : Memory Store) (w : World)
    (values : list Habit) (db' : Store) :
  load_data w (db m) = (py.Return values, db') ->
  let '(result, m') := load_habits load_data m w in
  result = py.Return tt
  /\ map (heap m') (habits m') = values
  /\ NoDup (habits m')
  /\ (forall r, In r (habits m') -> (next_ref m <= r < next_ref m')%nat)
  /\ (forall r, (r < next_ref m)%nat -> heap m' r = heap m r)
  /\ db m' = db'.
Proof.
  intros Hload. tr_run. rewrite Hload. tr_run.
  split; [reflexivity |]. split; [| split; [| split; [| split]]].
  - apply nth_error_ext. intros i.
    rewrite nth_error_map, nth_error_seq.
    destruct (Nat.ltb_spec i (List.length values)) as [Hi | Hi].
    + cbn [option_map].
      destruct (nth_error values i) as [v |] eqn:E.
      * f_equal. apply heap_alloc_at, E.
      * apply nth_error_None in E. lia.
    + cbn [option_map]. symmetry. apply nth_error_None. exact Hi.
  - apply seq_NoDup.
  - intros r Hr. apply in_seq in Hr. lia.
  - intros r Hr. apply heap_alloc_below, Hr.
  - reflexivity.
Qed.

End HabitTrackerFacts.

Lemma remove_missing_witness :
  remove_habit snapshot_save "nonexistent-id" sample_memory
    (world_on 739388)
  = (py.Return false, sample_memory).
Proof.
  apply (remove_missing_habit snapshot_save "nonexistent-id" sample_memory
           (world_on 739388)).
  intros r [<- | [<- | []]]; cbn; discriminate.
Defined.

Lemma remove_present_witness :
  habits (snd (remove_habit snapshot_save "d1" sample_memory
                 (world_on 739388)))
  = [1%nat].
Proof.
  pose proof (remove_present_habit snapshot_save "d1" sample_memory
                (world_on 739388)
                (ex_intro _ 0%nat (conj (or_introl eq_refl) eq_refl))) as H.
  cbv zeta in H.
  destruct (remove_habit snapshot_save "d1" sample_memory (world_on 739388))
    as [result m'].
  destruct H as [H _]. cbn [snd]. rewrite H. reflexivity.
Defined.

Lemma complete_missing_witness :
  complete_habit snapshot_save "nonexistent-id" sample_memory
    (world_on 739388)
  = (py.Return false, sample_memory).
Proof.
  apply (complete_missing_habit snapshot_save "nonexistent-id"
           sample_memory (world_on 739388)).
  intros r [<- | [<- | []]]; cbn; discriminate.
Defined.


Lemma add_then_remove_witness :
  habits (snd (remove_habit snapshot_save "d2"
                 (snd (add_habit snapshot_save 2%nat sample_memory
                         (world_on 739388)))
                 (world_on 739388)))
  = [0%nat; 1%nat].
Proof.
  assert (Hfresh : forall r, In r (habits sample_memory) ->
                     id (heap sample_memory r)
                     <> id (heap sample_memory 2%nat))
    by (intros r [<- | [<- | []]]; cbn; discriminate).
  pose proof (add_then_remove snapshot_save 2%nat sample_memory
                (world_on 739388) Hfresh) as H.
  destruct (add_habit snapshot_save 2%nat sample_memory (world_on 739388))
    as [r1 m1].
  change (id (heap sample_memory 2%nat)) with "d2" in H. cbn [snd].
  destruct (remove_habit snapshot_save "d2" m1 (world_on 739388))
    as [r2 m2].
  cbn [snd]. apply H.
Defined.

Lemma load_habits_witness :
  map (heap (snd (load_habits snapshot_load sample_memory
                    (world_on 739388))))
      (habits (snd (load_habits snapshot_load sample_memory
                      (world_on 739388))))
  = [daily_two_days; weekly_midweek].
Proof.
  pose proof (load_habits_allocates snapshot_load sample_memory
                (world_on 739388) [daily_two_days; weekly_midweek]
                [daily_two_days; weekly_midweek] eq_refl) as H.
  destruct (load_habits snapshot_load sample_memory (world_on 739388))
    as [result m'].
  cbn [snd]. apply H.
Defined.

(** * What the streak computations depend on *)

Lemma existsb_same_members {A} (p : A -> bool) (l l' : list A) :
  (forall x, In x l -> exists y, In y l' /\ p y = p x) ->
  (forall y, In y l' -> exists x, In x l /\ p x = p y) ->
  existsb p l = existsb p l'.
Proof.
  intros H H'.
  destruct (existsb p l) eqn:E, (existsb p l') eqn:E'; try reflexivity.
  - apply existsb_exists in E. destruct E as [x [Hx Hp]].
    destruct (H x Hx) as [y [Hy Hpy]].
    assert (existsb p l' = true)
      by (apply existsb_exists; exists y; split; congruence).
    congruence.
  - apply existsb_exists in E'. destruct E' as [y [Hy Hp]].
    destruct (H' y Hy) as [x [Hx Hpx]].
    assert (existsb p l = true)
      by (apply existsb_exists; exists x; split; congruence).
    congruence.
Qed.

Section SameDates.

Variables h h' : Habit.
Hypothesis same_periodicity : periodicity h' = periodicity h.
Hypothesis same_creation_date :
  datetime.date (created_at h') = datetime.date (created_at h).
Hypothesis same_completion_dates :
  forall d, In d (map datetime.date (completions h'))
            <-> In d (map datetime.date (completions h)).

Lemma same_dates_members (p : date.t -> bool) :
  existsb (fun c => p (datetime.date c)) (completions h')
  = existsb (fun c => p (datetime.date c)) (completions h).
Proof.
  apply existsb_same_members.
  - intros c Hc.
    assert (Hd : In (datetime.date c) (map datetime.date (completions h)))
      by (apply same_completion_dates, in_map, Hc).
    apply in_map_iff in Hd. destruct Hd as [c' [E Hc']].
    exists c'. split; [exact Hc' | rewrite E; reflexivity].
  - intros c Hc.
    assert (Hd : In (datetime.date c) (map datetime.date (completions h')))
      by (apply same_completion_dates, in_map, Hc).
    apply in_map_iff in Hd. destruct Hd as [c' [E Hc']].
    exists c'. split; [exact Hc' | rewrite E; reflexivity].
Qed.

Lemma same_dates_completed (d : date.t) :
  completed_on h' d = completed_on h d.
Proof.
  rewrite !completed_on_anchor, same_periodicity.
  apply (same_dates_members
           (fun x => periodAnchor (periodicity h) x
                     =? periodAnchor (periodicity h) d)).
Qed.

Lemma same_dates_streak_loop delta check_date streak :
  streak_loop h' delta check_date streak
  = streak_loop h delta check_date streak.
Proof.
  revert streak.
  induction check_date as [c IH]
    using (down_to_ind (datetime.date (created_at h))).
  intros streak.
  rewrite (streak_loop_step h'), (streak_loop_step h),
    same_creation_date, same_dates_completed.
  destruct (Z.geb_spec c (datetime.date (created_at h))); [| reflexivity].
  destruct (completed_on h c); [| reflexivity].
  apply IH; lia.
Qed.

Lemma same_dates_empty :
  py.not_ (completions h') = py.not_ (completions h).
Proof.
  pose proof same_completion_dates as Hsame.
  destruct (completions h') as [| c' l'], (completions h) as [| c l];
    try reflexivity; exfalso.
  - apply (proj2 (Hsame (datetime.date c))). left. reflexivity.
  - apply (proj1 (Hsame (datetime.date c'))). left. reflexivity.
Qed.

(** X20: the three streak computations depend on a habit only through
    its periodicity, its creation date and the set of dates of its
    completions: the order of the completions, repeated dates, the times
    of day, the id, the name and the description play no role. *)
Theorem streaks_depend_on_dates_only (days : Z) (w : World) :
  get_current_streak h' w = get_current_streak h w
  /\ get_longest_streak h' w = get_longest_streak h w
  /\ is_struggling (datetime.date (wall_clock w)) days h'
     = is_struggling (datetime.date (wall_clock w)) days h.
Proof.
  split; [| split].
  - rewrite !get_current_streak_eq. cbv zeta.
    rewrite same_periodicity, same_dates_streak_loop.
    assert (Hall : forall l : list datetime.t,
              forallb
                (fun c => datetime.date c
                          <? periodAnchor (periodicity h)
                               (datetime.date (wall_clock w))) l
              = negb
                  (existsb
                     (fun c => negb (datetime.date c
                                     <? periodAnchor (periodicity h)
                                          (datetime.date (wall_clock w))))
                     l)).
    { induction l as [| c l IH]; [reflexivity |].
      cbn [forallb existsb]. rewrite negb_orb, negb_involutive, IH.
      reflexivity. }
    rewrite !Hall.
    rewrite (same_dates_members
               (fun x => negb (x <? periodAnchor (periodicity h)
                                     (datetime.date (wall_clock w))))).
    reflexivity.
  - rewrite !get_longest_streak_eq, same_dates_empty.
    destruct (py.not_ (completions h)); [reflexivity |]. do 2 f_equal.
    unfold all_periods. rewrite same_periodicity, same_creation_date.
    apply map_ext, same_dates_completed.
  - unfold is_struggling. rewrite !count_fold.
    unfold check_dates. rewrite same_periodicity, same_creation_date.
    rewrite (filter_ext _ _ same_dates_completed).
    rewrite (filter_ext (fun d => negb (completed_on h' d))
               (fun d => negb (completed_on h d)))
      by (intros d; rewrite same_dates_completed; reflexivity).
    reflexivity.
Qed.

End SameDates.

Lemma streaks_depend_on_dates_witness :
  let h' :=
    mkHabit "other" "Read" "" "daily" (datetime.combine 739386 0)
      [datetime.combine 739387 1; datetime.combine 739386 2;
       datetime.combine 739387 3] in
  get_current_streak h' (world_on 739387)
  = get_current_streak daily_two_days (world_on 739387).
Proof.
  intros h'.
  assert (Hdates : forall d,
            In d (map datetime.date (completions h'))
            <-> In d (map datetime.date (completions daily_two_days)))
    by (intros d; cbn; tauto).
  apply (streaks_depend_on_dates_only daily_two_days h'
           eq_refl eq_refl Hdates 30 (world_on 739387)).
Defined.
